(** * The Hetzner failover-IP configurer of vip-manager

    A shallow embedding of [ipmanager/hetznerConfigurer.go] and the
    properties of its cached-state logic.

    The configurer talks to the outside world through four channels: the
    wall clock, the routing table (a UDP dial that reveals the local
    address), the [curl] child process and the logger.  They are modelled by
    a [World] that holds one oracle per input channel and the trace of each
    output channel; the Go methods become computations in a state monad over
    that world, with a distinguished outcome for a run-time panic.  The
    receiver [c *HetznerConfigurer] is passed in and handed back. *)

From Stdlib Require Import ZArith String Ascii List Lia.
From Stdlib Require Import Floats.SpecFloat.
From stdpp Require Import base option gmap strings.

Set Warnings "-register-all".

Local Open Scope string_scope.
Local Open Scope list_scope.
Local Open Scope Z_scope.

(** ** Go values used by the file *)

(** A Go [error] value, identified with its message. *)
Definition error := string.

(** [float64]: IEEE 754 binary64, as the specification floats of the
    standard library. *)
Definition float64 := spec_float.

(** [time.Time] and [time.Duration]: nanoseconds, the latter a signed 64-bit
    count that saturates instead of wrapping. *)
Module GoTime.

Definition Time := Z.
Definition Duration := Z.

Definition minDuration : Duration := - 2 ^ 63.
Definition maxDuration : Duration := 2 ^ 63 - 1.

Definition Nanosecond : Duration := 1.
Definition Second : Duration := 1000000000 * Nanosecond.
Definition Minute : Duration := 60 * Second.
Definition Hour : Duration := 60 * Minute.

(** [t.Sub(u)]: the difference, clamped to the range of [Duration]. *)
Definition Sub (t u : Time) : Duration :=
  let d := t - u in
  if d <? minDuration then minDuration
  else if maxDuration <? d then maxDuration
  else d.

(** [d / e] on [Duration]: Go's integer division truncates toward zero. *)
Definition div (d e : Duration) : Duration := Z.quot d e.

(** [time.Unix(0, 0)]. *)
Definition epoch : Time := 0.

End GoTime.

(** [net.IP]: a byte slice; the nil slice is the empty list. *)
Module GoNet.

Definition IP := list Byte.byte.

Definition IPv4len : nat := 4.
Definition IPv6len : nat := 16.

Definition v4InV6Prefix : list Byte.byte :=
  [Byte.x00; Byte.x00; Byte.x00; Byte.x00; Byte.x00; Byte.x00;
   Byte.x00; Byte.x00; Byte.x00; Byte.x00; Byte.xff; Byte.xff].

Definition is_nil (ip : IP) : bool :=
  match ip with [] => true | _ => false end.

(** [bytealg.Equal]. *)
Fixpoint bytes_Equal (a b : list Byte.byte) : bool :=
  match a, b with
  | [], [] => true
  | x :: a', y :: b' => Byte.eqb x y && bytes_Equal a' b'
  | _, _ => false
  end.

(** [ip.Equal(x)]: equal slices, or an IPv4 address and its IPv4-in-IPv6
    form. *)
Definition Equal (ip x : IP) : bool :=
  if Nat.eqb (length ip) (length x) then bytes_Equal ip x
  else if Nat.eqb (length ip) IPv4len && Nat.eqb (length x) IPv6len then
    bytes_Equal (take 12 x) v4InV6Prefix && bytes_Equal ip (drop 12 x)
  else if Nat.eqb (length ip) IPv6len && Nat.eqb (length x) IPv4len then
    bytes_Equal (take 12 ip) v4InV6Prefix && bytes_Equal (drop 12 ip) x
  else false.

End GoNet.

(** What [json.Unmarshal] stores in an [interface{}]. *)
Inductive json : Type :=
  | JNull
  | JBool (b : bool)
  | JNumber (f : float64)
  | JString (s : string)
  | JArray (l : list json)
  | JObject (m : gmap string json).

(** [m[k]] on a [map[string]interface{}]: the nil interface when the key is
    absent (a nil map has no keys). *)
Definition index (m : gmap string json) (k : string) : json :=
  default JNull (m !! k).

Definition not_nil (v : json) : bool :=
  match v with JNull => false | _ => true end.

(** ** The world outside the process *)

(** An argument handed to the logger. *)
Inductive logarg : Type :=
  | AString (s : string)
  | AFloat (f : float64)
  | AError (e : error).

(** One call of the [log] package. *)
Inductive logline : Type :=
  | Printf (format : string) (args : list logarg)
  | Println (args : list logarg).

Record World : Type := mkWorld {
  (** the value of the k-th reading of the clock *)
  wallclock : nat -> GoTime.Time;
  reads : nat;
  (** the k-th [net.Dial("udp", "8.8.8.8:80")]: the local address of the
      connection, or the error *)
  route : nat -> GoNet.IP + error;
  dials : nat;
  (** the k-th child process, by its argument vector: standard output and
      error of [cmd.Output()] *)
  process : nat -> list string -> string * option error;
  (** argument vectors of the child processes run so far, newest first *)
  runs : list (list string);
  (** lines logged so far, newest first *)
  logged : list logline;
}.

Inductive outcome (A : Type) : Type :=
  | Done (a : A)
  | Panicked (reason : string).
Arguments Done {A} a.
Arguments Panicked {A} reason.

Definition M (A : Type) : Type := World -> outcome A * World.

#[global] Instance M_ret : MRet M := fun A a w => (Done a, w).

#[global] Instance M_bind : MBind M := fun A B k m w =>
  match m w with
  | (Done a, w') => k a w'
  | (Panicked r, w') => (Panicked r, w')
  end.

Definition panic {A : Type} (reason : string) : M A :=
  fun w => (Panicked reason, w).

Definition time_Now : M GoTime.Time := fun w =>
  (Done (wallclock w (reads w)),
   mkWorld (wallclock w) (S (reads w)) (route w) (dials w)
           (process w) (runs w) (logged w)).

Definition time_Since (t : GoTime.Time) : M GoTime.Duration :=
  now ← time_Now; mret (GoTime.Sub now t).

Definition net_Dial : M (GoNet.IP + error) := fun w =>
  (Done (route w (dials w)),
   mkWorld (wallclock w) (reads w) (route w) (S (dials w))
           (process w) (runs w) (logged w)).

Definition exec_Output (argv : list string) : M (string * option error) :=
  fun w =>
  (Done (process w (length (runs w)) argv),
   mkWorld (wallclock w) (reads w) (route w) (dials w)
           (process w) (argv :: runs w) (logged w)).

Definition log_emit (l : logline) : M unit := fun w =>
  (Done tt,
   mkWorld (wallclock w) (reads w) (route w) (dials w)
           (process w) (runs w) (l :: logged w)).

Definition log_Printf (format : string) (args : list logarg) : M unit :=
  log_emit (Printf format args).

Definition log_Println (args : list logarg) : M unit :=
  log_emit (Println args).

(** Type assertions [v.(T)] panic when the dynamic type is not [T]. *)
Definition assert_map (v : json) : M (gmap string json) :=
  match v with
  | JObject m => mret m
  | _ => panic "interface conversion: not map[string]interface {}"
  end.

Definition assert_float64 (v : json) : M float64 :=
  match v with
  | JNumber f => mret f
  | _ => panic "interface conversion: not float64"
  end.

Definition assert_string (v : json) : M string :=
  match v with
  | JString s => mret s
  | _ => panic "interface conversion: not string"
  end.

(** ** The configurer *)

Definition unknown : Z := 0.
Definition configured : Z := 1.
Definition released : Z := 2.

(** [IPConfiguration] is declared elsewhere in the package; this file reads
    only its [VIP] field. *)
Record IPConfiguration : Type := { VIP : GoNet.IP }.

Record HetznerConfigurer : Type := mkHetznerConfigurer {
  IPConfiguration_ : IPConfiguration;
  cachedState : Z;
  lastAPICheck : GoTime.Time;
  username : string;
  password : string;
  verbose : bool;
}.

Definition set_cachedState (s : Z) (c : HetznerConfigurer) : HetznerConfigurer :=
  mkHetznerConfigurer (IPConfiguration_ c) s (lastAPICheck c)
                      (username c) (password c) (verbose c).

Definition set_lastAPICheck (t : GoTime.Time) (c : HetznerConfigurer)
  : HetznerConfigurer :=
  mkHetznerConfigurer (IPConfiguration_ c) (cachedState c) t
                      (username c) (password c) (verbose c).

(** The fields of [vipconfig.Config] read by the constructor. *)
Record Config : Type := {
  HetznerUser : string;
  HetznerPassword : string;
  Verbose : bool;
}.

Definition newHetznerConfigurer (config : Config) (ipConfig : IPConfiguration)
  : HetznerConfigurer * option error :=
  (mkHetznerConfigurer ipConfig unknown GoTime.epoch
     (HetznerUser config) (HetznerPassword config) (Verbose config),
   None).

Definition getOutboundIP : M GoNet.IP :=
  conn ← net_Dial;
  match conn with
  | inr err =>
      _ ← log_Println
            [AString "error dialing 8.8.8.8 to retrieve preferred outbound IP";
             AError err];
      mret []
  | inl localAddr => mret localAddr
  end.

Definition endpoint : string := "https://robot-ws.your-server.de/failover/".

Section Configurer.

(** Functions of the Go standard library that the file calls and whose
    code is not part of the package.  [json_Unmarshal str] is
    [json.Unmarshal([]byte(str), &f)] for [f map[string]interface{}]: the
    decoded object (empty when [f] stays nil) or the error. *)
Variable json_Unmarshal : string -> gmap string json + error.
(** [net.ParseIP]: nil when the text is not an IP address. *)
Variable net_ParseIP : string -> GoNet.IP.
(** [ip.String()]. *)
Variable IP_String : GoNet.IP -> string.

Definition failover_url (c : HetznerConfigurer) : string :=
  endpoint +:+ IP_String (VIP (IPConfiguration_ c)).

(** The two commands built by [exec.Command]: program and arguments. *)
Definition curl_post (c : HetznerConfigurer) (myOwnIP : GoNet.IP)
  : list string :=
  ["curl"; "--ipv4"; "-u"; username c +:+ ":" +:+ password c;
   failover_url c; "-d"; "active_server_ip=" +:+ IP_String myOwnIP].

Definition curl_get (c : HetznerConfigurer) : list string :=
  ["curl"; "--ipv4"; "-u"; username c +:+ ":" +:+ password c;
   failover_url c].

(** [cmd.Output()] and the lines that follow it in [curlQueryFailover]. *)
Definition run_curl (argv : list string) : M (string * option error) :=
  r ← exec_Output argv;
  match r with
  | (_, Some err) => mret (EmptyString, Some err)
  | (out, None) => mret (out, None)
  end.

Definition curlQueryFailover (c : HetznerConfigurer) (post : bool)
  : M (string * option error) :=
  if post then
    myOwnIP ← getOutboundIP;
    if GoNet.is_nil myOwnIP then
      _ ← log_Printf "Error determining this machine's IP address." [];
      mret (EmptyString, Some "Error determining this machine's IP address")
    else
      _ ← log_Printf "my_own_ip: %s\n" [AString (IP_String myOwnIP)];
      _ ← (if verbose c then
             log_Printf "%s %s %s '%s' %s %s %s"
               [AString "curl"; AString "--ipv4"; AString "-u";
                AString (username c +:+ ":XXXXXX");
                AString (failover_url c); AString "-d";
                AString ("active_server_ip=" +:+ IP_String myOwnIP)]
           else mret tt);
      run_curl (curl_post c myOwnIP)
  else
    _ ← (if verbose c then
           log_Printf "%s %s %s %s %s"
             [AString "curl"; AString "--ipv4"; AString "-u";
              AString (username c +:+ ":XXXXXX");
              AString (failover_url c)]
         else mret tt);
    run_curl (curl_get c).

Definition getActiveIPFromJSON (c : HetznerConfigurer) (str : string)
  : M (GoNet.IP * option error) :=
  _ ← (if verbose c then log_Printf "JSON response: %s\n" [AString str]
       else mret tt);
  match json_Unmarshal str with
  | inr err =>
      _ ← log_Println [AError err];
      mret ([], Some err)
  | inl f =>
      if not_nil (index f "error") then
        errormap ← assert_map (index f "error");
        status ← assert_float64 (index errormap "status");
        code ← assert_string (index errormap "code");
        message ← assert_string (index errormap "message");
        _ ← log_Printf
              ("There was an error accessing the Hetzner API!\n" +:+
               " status: %f\n code: %s\n message: %s\n")
              [AFloat status; AString code; AString message];
        mret ([], Some "Hetzner API returned error response")
      else if not_nil (index f "failover") then
        failovermap ← assert_map (index f "failover");
        ip ← assert_string (index failovermap "ip");
        netmask ← assert_string (index failovermap "netmask");
        serverIP ← assert_string (index failovermap "server_ip");
        serverNumber ← assert_float64 (index failovermap "server_number");
        activeServerIP ← assert_string (index failovermap "active_server_ip");
        _ ← log_Println
              [AString "Result of the failover query was: ";
               AString "failover-ip="; AString ip;
               AString "netmask="; AString netmask;
               AString "server_ip="; AString serverIP;
               AString "server_number="; AFloat serverNumber;
               AString "active_server_ip="; AString activeServerIP];
        mret (net_ParseIP activeServerIP, None)
      else
        mret ([], Some "why did we end up here?")
  end.

(** The condition of the first [if] of [queryAddress], on the value of
    [time.Since(c.lastAPICheck)]. *)
Definition too_old (since : GoTime.Duration) : bool :=
  1 <? GoTime.div since GoTime.Hour.

(** [queryAddress] from the call of [curlQueryFailover] to its end. *)
Definition queryAddress_check (c : HetznerConfigurer)
  : M (bool * HetznerConfigurer) :=
  r ← curlQueryFailover c false;
  c ← match r.2 with
      | Some _ => mret (set_cachedState unknown c)
      | None => now ← time_Now; mret (set_lastAPICheck now c)
      end;
  p ← getActiveIPFromJSON c r.1;
  let c := match p.2 with
           | Some _ => set_cachedState unknown c
           | None => c
           end in
  own ← getOutboundIP;
  if GoNet.Equal p.1 own then mret (true, set_cachedState configured c)
  else mret (false, set_cachedState released c).

Definition queryAddress (c : HetznerConfigurer)
  : M (bool * HetznerConfigurer) :=
  since ← time_Since (lastAPICheck c);
  if too_old since then
    _ ← log_Println [AString "Cached state was too old."];
    queryAddress_check (set_cachedState unknown c)
  else if cachedState c =? configured then mret (true, c)
  else if cachedState c =? released then mret (false, c)
  else queryAddress_check c.

Definition deconfigureAddress (c : HetznerConfigurer)
  : M (bool * HetznerConfigurer) :=
  mret (true, set_cachedState released c).

Definition runAddressConfiguration (c : HetznerConfigurer) (action : string)
  : M (bool * HetznerConfigurer) :=
  r ← curlQueryFailover c true;
  match r.2 with
  | Some err =>
      _ ← log_Printf
            "Error while configuring Hetzner failover-ip! Error message: %s"
            [AError err];
      mret (false, set_cachedState unknown c)
  | None =>
      p ← getActiveIPFromJSON c r.1;
      match p.2 with
      | Some _ => mret (false, set_cachedState unknown c)
      | None =>
          now ← time_Now;
          let c := set_lastAPICheck now c in
          own ← getOutboundIP;
          if GoNet.Equal p.1 own then
            _ ← log_Printf "Failover was successfully executed!" [];
            mret (true, set_cachedState configured c)
          else
            own' ← getOutboundIP;
            _ ← log_Printf
                  ("The failover command was issued, but the current " +:+
                   "Failover destination (%s) is different from what it " +:+
                   "should be (%s).")
                  [AString (IP_String p.1); AString (IP_String own')];
            mret (false, set_cachedState unknown c)
      end
  end.

Definition configureAddress (c : HetznerConfigurer)
  : M (bool * HetznerConfigurer) :=
  runAddressConfiguration c "set".

Definition cleanupArp (c : HetznerConfigurer) : M HetznerConfigurer :=
  mret c.

End Configurer.

(** ** Executable models of the library functions

    Instances of the three library functions, used to run the configurer on
    concrete inputs.  The general results below hold for every instance. *)
Module GoLib.

Definition code (c : ascii) : Z := Z.of_N (N_of_ascii c).
Definition char (n : Z) : ascii := ascii_of_N (Z.to_N n).

Definition is_space (c : ascii) : bool :=
  (code c =? 32) || (code c =? 9) || (code c =? 10) || (code c =? 13).

Fixpoint skip_space (s : string) : string :=
  match s with
  | String c r => if is_space c then skip_space r else s
  | EmptyString => s
  end.

Definition digit (c : ascii) : option Z :=
  if (48 <=? code c) && (code c <=? 57) then Some (code c - 48) else None.

Definition hexdigit (c : ascii) : option Z :=
  if (48 <=? code c) && (code c <=? 57) then Some (code c - 48)
  else if (97 <=? code c) && (code c <=? 102) then Some (code c - 87)
  else if (65 <=? code c) && (code c <=? 70) then Some (code c - 55)
  else None.

(** A maximal run of decimal digits: its value on top of [acc], the number
    of digits on top of [n], and the rest of the text. *)
Fixpoint digits (acc n : Z) (s : string) : Z * Z * string :=
  match s with
  | String c r =>
      match digit c with
      | Some d => digits (10 * acc + d) (n + 1) r
      | None => (acc, n, s)
      end
  | EmptyString => (acc, n, s)
  end.

(** [strconv.ParseFloat(_, 64)] on the decimal [(-1)^neg * d * 10^e]: the
    nearest binary64, ties to even.  A negative exponent divides with a
    sticky bit below 60 bits of quotient. *)
Definition decimal_to_float64 (neg : bool) (d e : Z) : float64 :=
  let sign m := if neg then - m else m in
  if d =? 0 then S754_zero neg
  else if 0 <=? e then binary_normalize 53 1024 (sign (d * 10 ^ e)) 0 neg
  else
    let den := 10 ^ (- e) in
    let s := Z.max 0 (64 + Z.log2 den - Z.log2 d) in
    let q := Z.quot (d * 2 ^ s) den in
    let sticky := if Z.rem (d * 2 ^ s) den =? 0 then 0 else 1 in
    binary_normalize 53 1024 (sign (2 * q + sticky)) (- s - 1) neg.

(** A JSON number at the head of the text. *)
Definition number (s : string) : option (float64 * string) :=
  let '(neg, s) := match s with
                   | String "-" r => (true, r)
                   | _ => (false, s)
                   end in
  match s with
  | String c r =>
      match digit c with
      | None => None
      | Some d0 =>
          let '(ip, _, r) := if d0 =? 0 then (0, 1, r) else digits d0 1 r in
          let frac := match r with
                      | String "." r1 =>
                          let '(v, n, r2) := digits ip 0 r1 in
                          if n =? 0 then None else Some (v, n, r2)
                      | _ => Some (ip, 0, r)
                      end in
          match frac with
          | None => None
          | Some (v, n, r) =>
              let exp :=
                match r with
                | String c' r1 =>
                    if (code c' =? 101) || (code c' =? 69) then
                      let '(eneg, r2) :=
                        match r1 with
                        | String "-" r2 => (true, r2)
                        | String "+" r2 => (false, r2)
                        | _ => (false, r1)
                        end in
                      let '(x, k, r3) := digits 0 0 r2 in
                      if k =? 0 then None
                      else Some (if eneg then - x else x, r3)
                    else Some (0, r)
                | EmptyString => Some (0, r)
                end in
              match exp with
              | None => None
              | Some (x, r) =>
                  match decimal_to_float64 neg v (x - n) with
                  | S754_infinity _ | S754_nan => None
                  | f => Some (f, r)
                  end
              end
          end
      end
  | EmptyString => None
  end.

(** UTF-8 encoding of a code point, prepended in reverse onto [acc]. *)
Definition utf8_rev (cp : Z) (acc : list ascii) : list ascii :=
  if cp <? 128 then char cp :: acc
  else if cp <? 2048 then
    char (128 + cp mod 64) :: char (192 + cp / 64) :: acc
  else if cp <? 65536 then
    char (128 + cp mod 64) :: char (128 + (cp / 64) mod 64)
      :: char (224 + cp / 4096) :: acc
  else
    char (128 + cp mod 64) :: char (128 + (cp / 64) mod 64)
      :: char (128 + (cp / 4096) mod 64) :: char (240 + cp / 262144) :: acc.

Definition hex4 (a b c d : ascii) : option Z :=
  match hexdigit a, hexdigit b, hexdigit c, hexdigit d with
  | Some x, Some y, Some z, Some t => Some (((x * 16 + y) * 16 + z) * 16 + t)
  | _, _, _, _ => None
  end.

Definition string_of_rev (l : list ascii) : string :=
  fold_left (fun s c => String c s) l EmptyString.

(** The characters of a JSON string after its opening quote.  Bytes above
    127 are copied as they stand: the text is taken to be valid UTF-8. *)
Fixpoint chars (acc : list ascii) (s : string) : option (string * string) :=
  match s with
  | EmptyString => None
  | String c r =>
      if code c =? 34 then Some (string_of_rev acc, r)
      else if code c =? 92 then
        match r with
        | String "u" (String h1 (String h2 (String h3 (String h4 r')))) =>
            match hex4 h1 h2 h3 h4 with
            | None => None
            | Some hi =>
                if (55296 <=? hi) && (hi <? 56320) then
                  match r' with
                  | String "\" (String "u" (String l1 (String l2
                      (String l3 (String l4 r''))))) =>
                      match hex4 l1 l2 l3 l4 with
                      | Some lo =>
                          if (56320 <=? lo) && (lo <? 57344) then
                            chars (utf8_rev (65536 + (hi - 55296) * 1024
                                             + (lo - 56320)) acc) r''
                          else chars (utf8_rev 65533 acc) r'
                      | None => chars (utf8_rev 65533 acc) r'
                      end
                  | _ => chars (utf8_rev 65533 acc) r'
                  end
                else if (56320 <=? hi) && (hi <? 57344) then
                  chars (utf8_rev 65533 acc) r'
                else chars (utf8_rev hi acc) r'
            end
        | String e r' =>
            let plain x := chars (char x :: acc) r' in
            if code e =? 34 then plain 34
            else if code e =? 92 then plain 92
            else if code e =? 47 then plain 47
            else if code e =? 98 then plain 8
            else if code e =? 102 then plain 12
            else if code e =? 110 then plain 10
            else if code e =? 114 then plain 13
            else if code e =? 116 then plain 9
            else None
        | EmptyString => None
        end
      else if code c <? 32 then None
      else chars (c :: acc) r
  end.

Definition literal (word : string) (v : json) (s : string)
  : option (json * string) :=
  if String.prefix word s
  then Some (v, String.substring (String.length word)
                  (String.length s - String.length word) s)
  else None.

Inductive expecting : Type :=
  | Value (depth : Z)
  | Members (depth : Z) (acc : gmap string json)
  | Elements (depth : Z) (acc : list json).

Definition maxNestingDepth : Z := 10000.

Definition head_is (n : Z) (s : string) : option string :=
  match s with
  | String c r => if code c =? n then Some r else None
  | EmptyString => None
  end.

(** The decoder proper: a value, the members of an object after its
    opening brace or a comma, or the elements of an array likewise. *)
Fixpoint decode (fuel : nat) (e : expecting) (s : string)
  : option (json * string) :=
  match fuel with
  | O => None
  | S fuel =>
      match e with
      | Value depth =>
          match skip_space s with
          | EmptyString => None
          | String c r as s' =>
              if code c =? 123 then
                if maxNestingDepth <? depth + 1 then None
                else match head_is 125 (skip_space r) with
                     | Some r' => Some (JObject ∅, r')
                     | None => decode fuel (Members (depth + 1) ∅) r
                     end
              else if code c =? 91 then
                if maxNestingDepth <? depth + 1 then None
                else match head_is 93 (skip_space r) with
                     | Some r' => Some (JArray [], r')
                     | None => decode fuel (Elements (depth + 1) []) r
                     end
              else if code c =? 34 then
                match chars [] r with
                | Some (str, r') => Some (JString str, r')
                | None => None
                end
              else if code c =? 116 then literal "true" (JBool true) s'
              else if code c =? 102 then literal "false" (JBool false) s'
              else if code c =? 110 then literal "null" JNull s'
              else match number s' with
                   | Some (f, r') => Some (JNumber f, r')
                   | None => None
                   end
          end
      | Members depth acc =>
          match head_is 34 (skip_space s) with
          | None => None
          | Some r =>
              match chars [] r with
              | None => None
              | Some (key, r) =>
                  match head_is 58 (skip_space r) with
                  | None => None
                  | Some r =>
                      match decode fuel (Value depth) r with
                      | None => None
                      | Some (v, r) =>
                          match skip_space r with
                          | EmptyString => None
                          | String c r =>
                              if code c =? 44 then
                                decode fuel (Members depth (<[key:=v]> acc)) r
                              else if code c =? 125 then
                                Some (JObject (<[key:=v]> acc), r)
                              else None
                          end
                      end
                  end
              end
          end
      | Elements depth acc =>
          match decode fuel (Value depth) s with
          | None => None
          | Some (v, r) =>
              match skip_space r with
              | EmptyString => None
              | String c r =>
                  if code c =? 44 then
                    decode fuel (Elements depth (acc ++ [v])) r
                  else if code c =? 93 then Some (JArray (acc ++ [v]), r)
                  else None
              end
          end
      end
  end.

(** [json.Unmarshal([]byte(str), &f)] with [f map[string]interface{}]. *)
Definition json_Unmarshal (str : string) : gmap string json + error :=
  match decode (S (String.length str)) (Value 0) str with
  | Some (v, r) =>
      match skip_space r with
      | EmptyString =>
          match v with
          | JObject m => inl m
          | JNull => inl ∅
          | _ => inr "json: cannot unmarshal into Go value of type map[string]interface {}"
          end
      | _ => inr "invalid character after top-level value"
      end
  | None => inr "invalid JSON input"
  end.

Definition byte_of_Z (n : Z) : Byte.byte :=
  default Byte.x00 (Byte.of_N (Z.to_N n)).

Definition Z_of_byte (b : Byte.byte) : Z := Z.of_N (Byte.to_N b).

(** [parseIPv4Fields]: four decimal octets separated by dots, no octet
    above 255 or with a leading zero.  [first] holds at the first
    character, [dot] after a dot; [val] and [digLen] describe the octet
    being read and [fields] the octets read. *)
Fixpoint parseIPv4Fields (first dot : bool) (val digLen : Z)
         (fields : list Z) (s : string) : option (list Z) :=
  match s with
  | EmptyString =>
      if Nat.ltb (length fields) 3 then None else Some (fields ++ [val])
  | String c r =>
      match digit c with
      | Some d =>
          if (digLen =? 1) && (val =? 0) then None
          else if 255 <? val * 10 + d then None
          else parseIPv4Fields false false (val * 10 + d) (digLen + 1) fields r
      | None =>
          if code c =? 46 then
            if first || dot then None
            else match r with
                 | EmptyString => None
                 | _ =>
                     if Nat.eqb (length fields) 3 then None
                     else parseIPv4Fields false true 0 0 (fields ++ [val]) r
                 end
          else None
      end
  end.

(** Which of [.], [:] and [%] comes first in the text. *)
Fixpoint first_separator (s : string) : option Z :=
  match s with
  | EmptyString => None
  | String c r =>
      if (code c =? 46) || (code c =? 58) || (code c =? 37) then Some (code c)
      else first_separator r
  end.

(** [net.ParseIP] on text whose first separator is not a colon: the
    16-byte form of a dotted-decimal IPv4 address, or nil.  The
    hexadecimal IPv6 syntax is not modelled: text whose first separator is
    a colon is answered with nil as well, which is Go's answer only when
    that text is not an IPv6 address. *)
Definition net_ParseIP (s : string) : GoNet.IP :=
  match first_separator s with
  | Some 46 =>
      match parseIPv4Fields true false 0 0 [] s with
      | Some fields => GoNet.v4InV6Prefix ++ map byte_of_Z fields
      | None => []
      end
  | _ => []
  end.

Definition decimal_digit (n : Z) : string := String (char (48 + n)) EmptyString.

Definition hex_digit (n : Z) : string :=
  String (char (if n <? 10 then 48 + n else 87 + n)) EmptyString.

(** Decimal text of a byte. *)
Definition utoa (n : Z) : string :=
  if n <? 10 then decimal_digit n
  else if n <? 100 then decimal_digit (n / 10) +:+ decimal_digit (n mod 10)
  else decimal_digit (n / 100) +:+ decimal_digit ((n / 10) mod 10)
         +:+ decimal_digit (n mod 10).

(** Hexadecimal text of a 16-bit group, without leading zeros. *)
Definition hex16 (n : Z) : string :=
  if n <? 16 then hex_digit n
  else if n <? 256 then hex_digit (n / 16) +:+ hex_digit (n mod 16)
  else if n <? 4096 then
    hex_digit (n / 256) +:+ hex_digit ((n / 16) mod 16) +:+ hex_digit (n mod 16)
  else hex_digit (n / 4096) +:+ hex_digit ((n / 256) mod 16)
         +:+ hex_digit ((n / 16) mod 16) +:+ hex_digit (n mod 16).

Fixpoint join (sep : string) (l : list string) : string :=
  match l with
  | [] => EmptyString
  | [x] => x
  | x :: r => x +:+ sep +:+ join sep r
  end.

Fixpoint groups (l : list Byte.byte) : list Z :=
  match l with
  | hi :: lo :: r => (Z_of_byte hi * 256 + Z_of_byte lo) :: groups r
  | _ => []
  end.

Fixpoint zero_run (l : list Z) : nat :=
  match l with
  | 0 :: r => S (zero_run r)
  | _ => O
  end.

(** The first longest run of at least two zero groups, as start and
    length, searching from position [i]. *)
Fixpoint longest_zero_run (i : nat) (l : list Z) (best : nat * nat)
  : nat * nat :=
  match l with
  | [] => best
  | _ :: r =>
      let n := zero_run l in
      longest_zero_run (S i) r
        (if Nat.leb 2 n && Nat.ltb (snd best) n then (i, n) else best)
  end.

Definition to4 (ip : GoNet.IP) : list Byte.byte :=
  if Nat.eqb (length ip) 4 then ip
  else if Nat.eqb (length ip) 16
          && GoNet.bytes_Equal (take 12 ip) GoNet.v4InV6Prefix
  then drop 12 ip
  else [].

(** [ip.String()]. *)
Definition IP_String (ip : GoNet.IP) : string :=
  if Nat.eqb (length ip) 0 then "<nil>"
  else if negb (Nat.eqb (length ip) 4) && negb (Nat.eqb (length ip) 16) then
    "?" +:+ join EmptyString (map (fun b => hex_digit (Z_of_byte b / 16)
                                     +:+ hex_digit (Z_of_byte b mod 16)) ip)
  else if Nat.eqb (length (to4 ip)) 4 then
    join "." (map (fun b => utoa (Z_of_byte b)) (to4 ip))
  else
    let g := groups ip in
    let '(start, len) := longest_zero_run 0 g (O, O) in
    if Nat.eqb len 0 then join ":" (map hex16 g)
    else join ":" (map hex16 (take start g)) +:+ "::"
           +:+ join ":" (map hex16 (drop (start + len) g)).

End GoLib.

(** ** Observers of a world and of a call

    What the next external calls will answer, counted from the state of the
    world at the start of an operation. *)

(** The [k]-th next reading of the clock. *)
Definition clock (w : World) (k : nat) : GoTime.Time :=
  wallclock w (reads w + k)%nat.

(** What the [k]-th next call of [getOutboundIP] returns. *)
Definition outbound (w : World) (k : nat) : GoNet.IP :=
  match route w (dials w + k)%nat with
  | inl localAddr => localAddr
  | inr _ => []
  end.

(** What [cmd.Output()] answers to the next child process. *)
Definition reply (w : World) (argv : list string) : string * option error :=
  process w (length (runs w)) argv.

(** [time.Since(c.lastAPICheck)] at the start of an operation. *)
Definition since (c : HetznerConfigurer) (w : World) : GoTime.Duration :=
  GoTime.Sub (clock w 0) (lastAPICheck c).

(** [queryAddress] goes on to query the provider: the cache is too old or
    holds neither [configured] nor [released]. *)
Definition refreshes (c : HetznerConfigurer) (w : World) : bool :=
  too_old (since c w)
  || negb (cachedState c =? configured) && negb (cachedState c =? released).

(** A configurer that logs nothing about its requests, and a world in which
    nothing has happened yet. *)
Definition quiet : HetznerConfigurer :=
  mkHetznerConfigurer {| VIP := [] |} unknown GoTime.epoch
                      EmptyString EmptyString false.

Definition blank : World :=
  mkWorld (fun _ => 0) O (fun _ => inl []) O
          (fun _ _ => (EmptyString, None)) [] [].

(** What [getActiveIPFromJSON] returns on a body, its log lines apart. *)
Definition parsed (json_Unmarshal : string -> gmap string json + error)
           (net_ParseIP : string -> GoNet.IP) (str : string)
  : outcome (GoNet.IP * option error) :=
  (getActiveIPFromJSON json_Unmarshal net_ParseIP quiet str blank).1.

(** [w'] is [w] after [r] readings of the clock, [d] dials and the child
    processes [cmds] (newest first), and any number of log lines. *)
Definition advanced (w w' : World) (r d : nat) (cmds : list (list string))
  : Prop :=
  wallclock w' = wallclock w /\ reads w' = (reads w + r)%nat /\
  route w' = route w /\ dials w' = (dials w + d)%nat /\
  process w' = process w /\ runs w' = cmds ++ runs w.

(** What [curlQueryFailover] returns once the next child process has run. *)
Definition fetched (w : World) (argv : list string) : string * option error :=
  match reply w argv with
  | (_, Some err) => (EmptyString, Some err)
  | (out, None) => (out, None)
  end.

(** [m] answers [r] in every world and touches nothing but the log. *)
Definition logs_only {A : Type} (m : M A) (r : outcome A) : Prop :=
  forall w, exists w', m w = (r, w') /\ advanced w w' 0 0 [].

(** ** The request as logged and as issued *)

(** The marker that the verbose log puts where the password stands. *)
Definition redacted : string := "XXXXXX".

(** The argument of [-u] in a command line of [curl]. *)
Definition credentials (argv : list string) : string :=
  default EmptyString (argv !! 3%nat).

Definition set_password (p : string) (c : HetznerConfigurer)
  : HetznerConfigurer :=
  mkHetznerConfigurer (IPConfiguration_ c) (cachedState c) (lastAPICheck c)
                      (username c) p (verbose c).

(** ** Sample configurers, worlds and provider replies *)
Module Sample.

(** 203.0.113.10, the address managed; 192.0.2.7, the node's own. *)
Definition vip : GoNet.IP := [Byte.xcb; Byte.x00; Byte.x71; Byte.x0a].
Definition own : GoNet.IP := [Byte.xc0; Byte.x00; Byte.x02; Byte.x07].

Definition node (state : Z) (last : GoTime.Time) : HetznerConfigurer :=
  mkHetznerConfigurer {| VIP := vip |} state last "robot" "hunter2" true.

(** A world whose clock stands at [now], whose dials answer [addr] and
    whose child processes all answer [out]. *)
Definition world (now : GoTime.Time) (addr : nat -> GoNet.IP + error)
           (out : string * option error) : World :=
  mkWorld (fun _ => now) O addr O (fun _ _ => out) [] [].

Definition routed : nat -> GoNet.IP + error := fun _ => inl own.
Definition unreachable : nat -> GoNet.IP + error :=
  fun _ => inr "dial udp 8.8.8.8:80: connect: network is unreachable".
(** The route is there for the first dial and gone afterwards. *)
Definition route_lost : nat -> GoNet.IP + error :=
  fun k => match k with O => inl own | S _ => unreachable k end.

Definition curl_failed : string * option error :=
  (EmptyString, Some "exit status 7").

(** JSON text written with apostrophes for its double quotes. *)
Definition json_text (s : string) : string :=
  string_of_list_ascii
    (map (fun ch => if Ascii.eqb ch "'" then ascii_of_nat 34 else ch)
         (list_ascii_of_string s)).

Definition failover_body (active : string) : string :=
  json_text ("{'failover':{'ip':'203.0.113.10','netmask':'255.255.255.255',"
             +:+ "'server_ip':'192.0.2.7','server_number':321,"
             +:+ "'active_server_ip':'" +:+ active +:+ "'}}").

Definition error_body : string :=
  json_text ("{'error':{'status':401,'code':'UNAUTHORIZED',"
             +:+ "'message':'Unauthorized'}}").

(** Ten o'clock UTC on 15 November 2023, in nanoseconds since the epoch. *)
Definition ten : GoTime.Time := 1700042400 * GoTime.Second.

(** The objects that the two sample bodies decode to. *)
Definition error_record : gmap string json :=
  {[ "status" := JNumber (GoLib.decimal_to_float64 false 401 0);
     "code" := JString "UNAUTHORIZED";
     "message" := JString "Unauthorized" ]}.

Definition failover_record (active : string) : gmap string json :=
  {[ "ip" := JString "203.0.113.10";
     "netmask" := JString "255.255.255.255";
     "server_ip" := JString "192.0.2.7";
     "server_number" := JNumber (GoLib.decimal_to_float64 false 321 0);
     "active_server_ip" := JString active ]}.

(** Ten minutes to ten, half past nine and nine o'clock of the same day. *)
Definition ten_to_ten : GoTime.Time := ten - 10 * GoTime.Minute.
Definition half_past_nine : GoTime.Time := ten - 30 * GoTime.Minute.
Definition nine : GoTime.Time := ten - GoTime.Hour.

(** Worlds at ten o'clock: the provider names another server, or this
    node; the network is down; [curl] alone fails; the provider answers
    with an error record, or with a page that is no JSON; the provider
    names no address and the route is lost after the first dial. *)
Definition w_other : World := world ten routed (failover_body "192.0.2.8", None).
Definition w_own : World := world ten routed (failover_body "192.0.2.7", None).
Definition w_down : World := world ten unreachable curl_failed.
Definition w_curl_failed : World := world ten routed curl_failed.
Definition w_error : World := world ten routed (error_body, None).
Definition w_page : World :=
  world ten routed ("<html>502 Bad Gateway</html>", None).
Definition w_lost : World :=
  world ten route_lost (failover_body EmptyString, None).

End Sample.

(** The configurer over the executable models. *)
Local Notation "'queryAddress''" :=
  (queryAddress GoLib.json_Unmarshal GoLib.net_ParseIP GoLib.IP_String).
Local Notation "'configureAddress''" :=
  (configureAddress GoLib.json_Unmarshal GoLib.net_ParseIP GoLib.IP_String).
Local Notation "'parsed''" :=
  (parsed GoLib.json_Unmarshal GoLib.net_ParseIP).

(** What [curlQueryFailover] hands back to [queryAddress] and to
    [runAddressConfiguration] at the start of an operation. *)
Definition read_reply (IP_String : GoNet.IP -> string)
           (c : HetznerConfigurer) (w : World) : string * option error :=
  fetched w (curl_get IP_String c).

Definition write_reply (IP_String : GoNet.IP -> string)
           (c : HetznerConfigurer) (w : World) : string * option error :=
  if GoNet.is_nil (outbound w 0)
  then (EmptyString, Some "Error determining this machine's IP address")
  else fetched w (curl_post IP_String c (outbound w 0)).

(** ** The type assertions of the parser *)

Definition is_map (v : json) : bool :=
  match v with JObject _ => true | _ => false end.

Definition is_float64 (v : json) : bool :=
  match v with JNumber _ => true | _ => false end.

Definition is_string (v : json) : bool :=
  match v with JString _ => true | _ => false end.

(** The fields of [m] that [getActiveIPFromJSON] asserts to be strings and
    numbers once it has taken the [error] branch, and the [failover] one. *)
Definition error_fields_typed (m : gmap string json) : bool :=
  is_float64 (index m "status") && is_string (index m "code")
  && is_string (index m "message").

Definition failover_fields_typed (m : gmap string json) : bool :=
  is_string (index m "ip") && is_string (index m "netmask")
  && is_string (index m "server_ip") && is_float64 (index m "server_number")
  && is_string (index m "active_server_ip").

(** Every type assertion that [getActiveIPFromJSON] reaches on the decoded
    object [f] holds. *)
Definition assertions_hold (f : gmap string json) : bool :=
  match index f "error" with
  | JNull =>
      match index f "failover" with
      | JNull => true
      | JObject m => failover_fields_typed m
      | _ => false
      end
  | JObject m => error_fields_typed m
  | _ => false
  end.

(** ** Sequences of operations

    The configurer is driven from outside by calls of its four operations,
    one after the other on the same receiver. *)

Inductive operation : Type :=
  | QueryAddress
  | ConfigureAddress
  | DeconfigureAddress
  | CleanupArp.

Section Driver.

Variable json_Unmarshal : string -> gmap string json + error.
Variable net_ParseIP : string -> GoNet.IP.
Variable IP_String : GoNet.IP -> string.

(** One call, its boolean result dropped. *)
Definition perform (op : operation) (c : HetznerConfigurer)
  : M HetznerConfigurer :=
  match op with
  | QueryAddress =>
      r ← queryAddress json_Unmarshal net_ParseIP IP_String c; mret r.2
  | ConfigureAddress =>
      r ← configureAddress json_Unmarshal net_ParseIP IP_String c; mret r.2
  | DeconfigureAddress => r ← deconfigureAddress c; mret r.2
  | CleanupArp => cleanupArp c
  end.

Fixpoint perform_all (ops : list operation) (c : HetznerConfigurer)
  : M HetznerConfigurer :=
  match ops with
  | [] => mret c
  | op :: ops' => c' ← perform op c; perform_all ops' c'
  end.

(** A command that this configurer can build: the read request, or the
    write request in the name of some address. *)
Definition own_request (c : HetznerConfigurer) (argv : list string) : Prop :=
  argv = curl_get IP_String c \/ exists ip, argv = curl_post IP_String c ip.

End Driver.

(** The three values that the code gives to [cachedState]. *)
Definition valid_state (s : Z) : Prop :=
  s = unknown \/ s = configured \/ s = released.

(** Two configurers that differ in their cache at most. *)
Definition same_settings (c c' : HetznerConfigurer) : Prop :=
  IPConfiguration_ c' = IPConfiguration_ c /\ username c' = username c
  /\ password c' = password c /\ verbose c' = verbose c.

(** ** Further sample replies *)
Module Cases.

Import Sample.

(** The provider routes the address nowhere: [active_server_ip] is null. *)
Definition unrouted_body : string :=
  json_text ("{'failover':{'ip':'203.0.113.10','netmask':'255.255.255.255',"
             +:+ "'server_ip':'192.0.2.7','server_number':321,"
             +:+ "'active_server_ip':null}}").

Definition unrouted_record : gmap string json :=
  {[ "ip" := JString "203.0.113.10";
     "netmask" := JString "255.255.255.255";
     "server_ip" := JString "192.0.2.7";
     "server_number" := JNumber (GoLib.decimal_to_float64 false 321 0);
     "active_server_ip" := JNull ]}.

(** An error record and a failover record in one object. *)
Definition both_body : string :=
  json_text ("{'failover':{'ip':'203.0.113.10','netmask':'255.255.255.255',"
             +:+ "'server_ip':'192.0.2.7','server_number':321,"
             +:+ "'active_server_ip':'192.0.2.7'},"
             +:+ "'error':{'status':401,'code':'UNAUTHORIZED',"
             +:+ "'message':'Unauthorized'}}").

Definition both_object : gmap string json :=
  {[ "error" := JObject error_record;
     "failover" := JObject (failover_record "192.0.2.7") ]}.

(** The sample node without the verbose flag. *)
Definition silent_node : HetznerConfigurer :=
  mkHetznerConfigurer {| VIP := vip |} unknown ten_to_ten
                      "robot" "hunter2" false.

(** A day of the leadership loop: ask, claim, ask again, release, ask. *)
Definition day : list operation :=
  [QueryAddress; ConfigureAddress; QueryAddress; DeconfigureAddress;
   QueryAddress; CleanupArp].

End Cases.

(** The driver over the executable models. *)
Local Notation "'perform_all''" :=
  (perform_all GoLib.json_Unmarshal GoLib.net_ParseIP GoLib.IP_String).
Local Notation "'getActiveIPFromJSON''" :=
  (getActiveIPFromJSON GoLib.json_Unmarshal GoLib.net_ParseIP).

(** * Properties *)

(** ** Arithmetic of the age test *)

Lemma Hour_value : GoTime.Hour = 3600000000000.
Proof. reflexivity. Qed.

Lemma too_old_iff (d : GoTime.Duration) :
  too_old d = true <-> 2 * GoTime.Hour <= d.
Proof.
  unfold too_old, GoTime.div. rewrite Hour_value, Z.ltb_lt.
  destruct (Z_lt_le_dec d 0) as [Hneg|Hpos].
  - pose proof (Z.quot_opp_l d 3600000000000 ltac:(lia)) as H.
    assert (0 <= Z.quot (- d) 3600000000000) by (apply Z.quot_pos; lia).
    lia.
  - rewrite Z.quot_div_nonneg by lia.
    split; intros H.
    + apply Z.lt_le_pred in H. simpl in H.
      pose proof (Z.mul_div_le d 3600000000000 ltac:(lia)). nia.
    + assert (2 <= d `div` 3600000000000) by (apply Z.div_le_lower_bound; lia).
      lia.
Qed.

Lemma not_too_old_iff (d : GoTime.Duration) :
  too_old d = false <-> d < 2 * GoTime.Hour.
Proof.
  pose proof (too_old_iff d) as H. destruct (too_old d).
  - split; [done|]. intros. assert (2 * GoTime.Hour <= d) by tauto. lia.
  - split; [|done]. intros _.
    destruct (Z_lt_le_dec d (2 * GoTime.Hour)) as [|Hge]; [done|].
    apply H in Hge. done.
Qed.

Lemma within_the_hour (d : GoTime.Duration) :
  d <= GoTime.Hour -> too_old d = false.
Proof. intros H. apply not_too_old_iff. rewrite Hour_value in *. lia. Qed.

(** ** Comparison of addresses *)

Lemma Equal_nil_l (x : GoNet.IP) : GoNet.Equal [] x = GoNet.is_nil x.
Proof. destruct x as [|b x]; [reflexivity|]. unfold GoNet.Equal. simpl. reflexivity. Qed.

(** ** Running the primitive actions *)

Lemma advanced_refl w : advanced w w 0 0 [].
Proof. unfold advanced. by rewrite !Nat.add_0_r. Qed.

Lemma advanced_trans w1 w2 w3 r d cs r' d' cs' :
  advanced w1 w2 r d cs -> advanced w2 w3 r' d' cs' ->
  advanced w1 w3 (r + r') (d + d') (cs' ++ cs).
Proof.
  unfold advanced. intros (?&?&?&?&?&?) (?&?&?&?&?&?).
  repeat split; try congruence; try lia.
  rewrite <- app_assoc. congruence.
Qed.

Lemma advanced_log w1 w2 w3 r d cs :
  advanced w1 w2 r d cs -> advanced w2 w3 0 0 [] -> advanced w1 w3 r d cs.
Proof.
  intros H1 H2. pose proof (advanced_trans _ _ _ _ _ _ _ _ _ H1 H2) as H.
  by rewrite !Nat.add_0_r in H.
Qed.

Lemma log_advanced w1 w2 w3 r d cs :
  advanced w1 w2 0 0 [] -> advanced w2 w3 r d cs -> advanced w1 w3 r d cs.
Proof.
  intros H1 H2. pose proof (advanced_trans _ _ _ _ _ _ _ _ _ H1 H2) as H.
  by rewrite app_nil_r in H.
Qed.

Lemma clock_advanced w w' r d cs k :
  advanced w w' r d cs -> clock w' k = clock w (r + k).
Proof.
  intros (Hc&Hr&_). unfold clock. rewrite Hc, Hr. f_equal. lia.
Qed.

Lemma outbound_advanced w w' r d cs k :
  advanced w w' r d cs -> outbound w' k = outbound w (d + k).
Proof.
  intros (_&_&Hc&Hr&_). unfold outbound. rewrite Hc, Hr.
  replace (dials w + d + k)%nat with (dials w + (d + k))%nat by lia. done.
Qed.

Lemma reply_advanced w w' r d argv :
  advanced w w' r d [] -> reply w' argv = reply w argv.
Proof. intros (_&_&_&_&Hp&Hr). unfold reply. by rewrite Hp, Hr. Qed.

Lemma logs_only_ret {A} (a : A) : logs_only (mret a) (Done a).
Proof. intros w. exists w. split; [reflexivity|apply advanced_refl]. Qed.

Lemma logs_only_panic {A} (s : string) : logs_only (@panic A s) (Panicked s).
Proof. intros w. exists w. split; [reflexivity|apply advanced_refl]. Qed.

Lemma logs_only_emit (l : logline) : logs_only (log_emit l) (Done tt).
Proof.
  intros w. eexists. split; [reflexivity|].
  unfold advanced; simpl. by rewrite !Nat.add_0_r.
Qed.

Lemma logs_only_bind {A B} (m : M A) (k : A -> M B) a r :
  logs_only m (Done a) -> logs_only (k a) r -> logs_only (m ≫= k) r.
Proof.
  intros Hm Hk w. destruct (Hm w) as (w1 & E1 & S1).
  destruct (Hk w1) as (w2 & E2 & S2). exists w2.
  unfold mbind, M_bind. rewrite E1. split; [done|].
  by eapply advanced_log.
Qed.

Lemma logs_only_bind_panic {A B} (m : M A) (k : A -> M B) s :
  logs_only m (Panicked s) -> logs_only (m ≫= k) (Panicked s).
Proof.
  intros Hm w. destruct (Hm w) as (w1 & E1 & S1). exists w1.
  unfold mbind, M_bind. by rewrite E1.
Qed.

Lemma logs_only_when (b : bool) (l : logline) :
  logs_only (if b then log_emit l else mret tt) (Done tt).
Proof. destruct b; [apply logs_only_emit|apply logs_only_ret]. Qed.

Ltac use_fields :=
  repeat match goal with
         | H : index ?m ?k = _ |- context [index ?m ?k] => rewrite H
         end.

Ltac quiet_run :=
  repeat first
    [ apply logs_only_ret
    | apply logs_only_emit
    | apply logs_only_panic
    | apply logs_only_bind_panic; apply logs_only_panic
    | eapply logs_only_bind;
      [first [apply logs_only_when | apply logs_only_emit | apply logs_only_ret]|];
      cbv beta; use_fields ].

Section Runs.

Variable json_Unmarshal : string -> gmap string json + error.
Variable net_ParseIP : string -> GoNet.IP.
Variable IP_String : GoNet.IP -> string.

Lemma getActiveIPFromJSON_logs_only (str : string) :
  exists r, forall c,
    logs_only (getActiveIPFromJSON json_Unmarshal net_ParseIP c str) r.
Proof.
  unfold getActiveIPFromJSON, log_Printf, log_Println.
  destruct (json_Unmarshal str) as [f|err]; [|eexists; intros c; quiet_run].
  destruct (index f "error") as [| | | | |m] eqn:Ee; simpl not_nil;
    try (eexists; intros c; quiet_run; fail).
  - destruct (index f "failover") as [| | | | |m] eqn:Ef; simpl not_nil;
      try (eexists; intros c; quiet_run; fail).
    destruct (index m "ip") eqn:E1;
      try (eexists; intros c; quiet_run; fail).
    destruct (index m "netmask") eqn:E2;
      try (eexists; intros c; quiet_run; fail).
    destruct (index m "server_ip") eqn:E3;
      try (eexists; intros c; quiet_run; fail).
    destruct (index m "server_number") eqn:E4;
      try (eexists; intros c; quiet_run; fail).
    destruct (index m "active_server_ip") eqn:E5;
      eexists; intros c; quiet_run.
  - destruct (index m "status") eqn:E1;
      try (eexists; intros c; quiet_run; fail).
    destruct (index m "code") eqn:E2;
      try (eexists; intros c; quiet_run; fail).
    destruct (index m "message") eqn:E3;
      eexists; intros c; quiet_run.
Qed.

Lemma getActiveIPFromJSON_run c str w :
  exists w',
    getActiveIPFromJSON json_Unmarshal net_ParseIP c str w
    = (parsed json_Unmarshal net_ParseIP str, w')
    /\ advanced w w' 0 0 [].
Proof.
  destruct (getActiveIPFromJSON_logs_only str) as [r Hr].
  assert (parsed json_Unmarshal net_ParseIP str = r) as ->.
  { unfold parsed. destruct (Hr quiet blank) as (w' & E & _). by rewrite E. }
  apply Hr.
Qed.

Lemma time_Now_run w :
  exists w', time_Now w = (Done (clock w 0), w') /\ advanced w w' 1 0 [].
Proof.
  eexists. split; [unfold time_Now, clock; by rewrite Nat.add_0_r|].
  unfold advanced; simpl. repeat split; lia.
Qed.

Lemma getOutboundIP_run w :
  exists w',
    getOutboundIP w = (Done (outbound w 0), w') /\ advanced w w' 0 1 [].
Proof.
  unfold getOutboundIP, outbound, net_Dial, log_Println, log_emit,
    mbind, M_bind, mret, M_ret.
  rewrite Nat.add_0_r.
  destruct (route w (dials w)); eexists; (split; [reflexivity|]);
    unfold advanced; simpl; repeat split; lia.
Qed.

Lemma run_curl_run argv w :
  exists w',
    run_curl argv w = (Done (fetched w argv), w')
    /\ advanced w w' 0 0 [argv].
Proof.
  unfold run_curl, fetched, reply, exec_Output, mbind, M_bind, mret, M_ret.
  destruct (process w (length (runs w)) argv) as [out [err|]];
    eexists; (split; [reflexivity|]);
    unfold advanced; simpl; repeat split; lia.
Qed.

Lemma curlQueryFailover_get_run c w :
  exists w',
    curlQueryFailover IP_String c false w
    = (Done (fetched w (curl_get IP_String c)), w')
    /\ advanced w w' 0 0 [curl_get IP_String c].
Proof.
  unfold curlQueryFailover, log_Printf.
  match goal with
  | |- context [if verbose c then log_emit ?l else _] =>
      destruct (logs_only_when (verbose c) l w) as (w1 & E1 & A1)
  end.
  destruct (run_curl_run (curl_get IP_String c) w1)
    as (w2 & E2 & A2).
  exists w2. unfold mbind, M_bind. rewrite E1, E2.
  split; [|by eapply log_advanced].
  unfold fetched. by rewrite (reply_advanced _ _ _ _ _ A1).
Qed.

(** The check of [queryAddress], summarised: what the provider's reply and
    the routing table make of the configurer. *)
Lemma queryAddress_check_run c w :
  let argv := curl_get IP_String c in
  let r := fetched w argv in
  let c1 := match r.2 with
            | Some _ => set_cachedState unknown c
            | None => set_lastAPICheck (clock w 0) c
            end in
  exists w' n d,
    advanced w w' n d [argv] /\
    queryAddress_check json_Unmarshal net_ParseIP IP_String c w
    = (match parsed json_Unmarshal net_ParseIP r.1 with
       | Panicked s => Panicked s
       | Done p =>
           let c2 := match p.2 with
                     | Some _ => set_cachedState unknown c1
                     | None => c1
                     end in
           if GoNet.Equal p.1 (outbound w 0)
           then Done (true, set_cachedState configured c2)
           else Done (false, set_cachedState released c2)
       end, w').
Proof.
  intros argv r c1. unfold queryAddress_check.
  destruct (curlQueryFailover_get_run c w) as (w1 & E1 & A1).
  fold argv in E1, A1. fold r in E1.
  assert (exists w2 n,
            advanced w w2 n 0 [argv] /\
            (match r.2 with
             | Some _ => mret (set_cachedState unknown c)
             | None => now ← time_Now; mret (set_lastAPICheck now c)
             end) w1 = (Done c1, w2)) as (w2 & n & A2 & E2).
  { subst c1. destruct (r.2).
    - exists w1, O. split; [done|reflexivity].
    - destruct (time_Now_run w1) as (w2 & E & A).
      exists w2, (0 + 1)%nat. split.
      + pose proof (advanced_trans _ _ _ _ _ _ _ _ _ A1 A) as H.
        by rewrite app_nil_l in H.
      + unfold mbind, M_bind. rewrite E.
        by rewrite (clock_advanced _ _ _ _ _ 0%nat A1). }
  destruct (getActiveIPFromJSON_run c1 r.1 w2) as (w3 & E3 & A3).
  pose proof (advanced_log _ _ _ _ _ _ A2 A3) as A13.
  unfold mbind at 1, M_bind at 1. rewrite E1.
  unfold mbind at 1, M_bind at 1. rewrite E2.
  unfold mbind at 1, M_bind at 1. rewrite E3.
  destruct (parsed json_Unmarshal net_ParseIP r.1) as [p|s].
  2:{ exists w3, n, O. done. }
  destruct (getOutboundIP_run w3) as (w4 & E4 & A4).
  rewrite (outbound_advanced _ _ _ _ _ 0%nat A13) in E4. simpl in E4.
  exists w4, (n + 0)%nat, (0 + 1)%nat. split.
  { pose proof (advanced_trans _ _ _ _ _ _ _ _ _ A13 A4) as H.
    by rewrite app_nil_l in H. }
  cbv zeta. unfold mbind, M_bind. rewrite E4.
  by destruct (GoNet.Equal p.1 (outbound w 0)).
Qed.

Lemma time_Since_run t w :
  exists w',
    time_Since t w = (Done (GoTime.Sub (clock w 0) t), w')
    /\ advanced w w' 1 0 [].
Proof.
  destruct (time_Now_run w) as (w' & E & A). exists w'.
  unfold time_Since, mbind, M_bind. by rewrite E.
Qed.

(** A fresh enough [configured] or [released] is answered from the cache:
    one reading of the clock and nothing else. *)
Lemma queryAddress_hit c w :
  refreshes c w = false ->
  exists w',
    queryAddress json_Unmarshal net_ParseIP IP_String c w
    = (Done (cachedState c =? configured, c), w')
    /\ advanced w w' 1 0 [].
Proof.
  unfold refreshes. intros H.
  apply orb_false_iff in H as [Hage Hst].
  destruct (time_Since_run (lastAPICheck c) w) as (w' & E & A).
  exists w'. split; [|done].
  unfold queryAddress, mbind, M_bind. rewrite E. fold (since c w).
  rewrite Hage.
  destruct (cachedState c =? configured); [done|].
  destruct (cachedState c =? released); done.
Qed.

(** Otherwise the provider is asked, from state [unknown] when the cache
    was too old. *)
Lemma queryAddress_miss c w :
  refreshes c w = true ->
  exists w1,
    advanced w w1 1 0 [] /\
    queryAddress json_Unmarshal net_ParseIP IP_String c w
    = queryAddress_check json_Unmarshal net_ParseIP IP_String
        (if too_old (since c w) then set_cachedState unknown c else c) w1.
Proof.
  unfold refreshes. intros H.
  destruct (time_Since_run (lastAPICheck c) w) as (w1 & E & A).
  unfold queryAddress. unfold mbind at 1, M_bind at 1. rewrite E.
  fold (since c w). destruct (too_old (since c w)).
  - destruct (logs_only_emit (Println [AString "Cached state was too old."]) w1)
      as (w2 & E2 & A2).
    exists w2. split; [by eapply advanced_log|].
    unfold log_Println, mbind, M_bind. by rewrite E2.
  - exists w1. split; [done|]. simpl in H.
    destruct (cachedState c =? configured); [done|].
    destruct (cachedState c =? released); done.
Qed.

Lemma curlQueryFailover_post_run c w :
  exists w',
    advanced w w' 0 1
      (if GoNet.is_nil (outbound w 0) then []
       else [curl_post IP_String c (outbound w 0)]) /\
    curlQueryFailover IP_String c true w
    = (Done (if GoNet.is_nil (outbound w 0)
             then (EmptyString,
                   Some "Error determining this machine's IP address")
             else fetched w (curl_post IP_String c (outbound w 0))), w').
Proof.
  unfold curlQueryFailover, log_Printf.
  destruct (getOutboundIP_run w) as (w1 & E1 & A1).
  unfold mbind at 1, M_bind at 1. rewrite E1.
  destruct (GoNet.is_nil (outbound w 0)).
  - destruct (logs_only_emit
                (Printf "Error determining this machine's IP address." []) w1)
      as (w2 & E2 & A2).
    exists w2. split; [by eapply advanced_log|].
    unfold mbind, M_bind. by rewrite E2.
  - destruct (logs_only_emit
                (Printf "my_own_ip: %s\n" [AString (IP_String (outbound w 0))])
                w1) as (w2 & E2 & A2).
    match goal with
    | |- context [if verbose c then log_emit ?l else _] =>
        destruct (logs_only_when (verbose c) l w2) as (w3 & E3 & A3)
    end.
    destruct (run_curl_run
                (curl_post IP_String c (outbound w 0)) w3)
      as (w4 & E4 & A4).
    exists w4.
    pose proof (advanced_log _ _ _ _ _ _ (advanced_log _ _ _ _ _ _ A1 A2) A3)
      as A13.
    split.
    { pose proof (advanced_trans _ _ _ _ _ _ _ _ _ A13 A4) as H.
      by rewrite app_nil_r in H. }
    unfold mbind, M_bind. rewrite E2, E3, E4. unfold fetched.
    destruct A13 as (_&_&_&_&Hp&Hr). unfold reply. by rewrite Hp, Hr.
Qed.

(** [runAddressConfiguration], summarised likewise. *)
Lemma runAddressConfiguration_run c action w :
  let argv := curl_post IP_String c (outbound w 0) in
  let r := if GoNet.is_nil (outbound w 0)
           then (EmptyString,
                 Some "Error determining this machine's IP address")
           else fetched w argv in
  exists w' n d,
    advanced w w' n d (if GoNet.is_nil (outbound w 0) then [] else [argv]) /\
    runAddressConfiguration json_Unmarshal net_ParseIP IP_String c action w
    = (match r.2 with
       | Some _ => Done (false, set_cachedState unknown c)
       | None =>
           match parsed json_Unmarshal net_ParseIP r.1 with
           | Panicked s => Panicked s
           | Done p =>
               match p.2 with
               | Some _ => Done (false, set_cachedState unknown c)
               | None =>
                   let c1 := set_lastAPICheck (clock w 0) c in
                   if GoNet.Equal p.1 (outbound w 1)
                   then Done (true, set_cachedState configured c1)
                   else Done (false, set_cachedState unknown c1)
               end
           end
       end, w').
Proof.
  intros argv r. unfold runAddressConfiguration.
  destruct (curlQueryFailover_post_run c w) as (w1 & A1 & E1).
  fold argv in E1, A1. fold r in E1.
  set (cmds := if GoNet.is_nil (outbound w 0) then [] else [argv]) in *.
  unfold mbind at 1, M_bind at 1. rewrite E1.
  clearbody r. destruct r as [out [err|]]; cbn [fst snd].
  { destruct (logs_only_emit
                (Printf "Error while configuring Hetzner failover-ip! Error message: %s"
                   [AError err]) w1) as (w2 & E2 & A2).
    exists w2, O, 1%nat. split; [by eapply advanced_log|].
    unfold log_Printf, mbind, M_bind. by rewrite E2. }
  destruct (getActiveIPFromJSON_run c out w1) as (w2 & E2 & A2).
  pose proof (advanced_log _ _ _ _ _ _ A1 A2) as A12.
  unfold mbind at 1, M_bind at 1. rewrite E2.
  destruct (parsed json_Unmarshal net_ParseIP out) as [[ip [e|]]|s];
    cbn [fst snd]; [by exists w2, O, 1%nat| |by exists w2, O, 1%nat].
  destruct (time_Now_run w2) as (w3 & E3 & A3).
  rewrite (clock_advanced _ _ _ _ _ 0%nat A12) in E3. simpl in E3.
  pose proof (advanced_trans _ _ _ _ _ _ _ _ _ A12 A3) as A13.
  rewrite app_nil_l in A13.
  unfold mbind at 1, M_bind at 1. rewrite E3.
  destruct (getOutboundIP_run w3) as (w4 & E4 & A4).
  rewrite (outbound_advanced _ _ _ _ _ 0%nat A13) in E4. simpl in E4.
  pose proof (advanced_trans _ _ _ _ _ _ _ _ _ A13 A4) as A14.
  rewrite app_nil_l in A14.
  cbv zeta. unfold mbind at 1, M_bind at 1. rewrite E4.
  destruct (GoNet.Equal ip (outbound w 1)).
  - destruct (logs_only_emit (Printf "Failover was successfully executed!" [])
                w4) as (w5 & E5 & A5).
    exists w5, (0 + 1 + 0)%nat, (1 + 0 + 1)%nat.
    split; [by eapply advanced_log|].
    unfold log_Printf, mbind, M_bind. by rewrite E5.
  - destruct (getOutboundIP_run w4) as (w5 & E5 & A5).
    pose proof (advanced_trans _ _ _ _ _ _ _ _ _ A14 A5) as A15.
    rewrite app_nil_l in A15.
    unfold mbind at 1, M_bind at 1. rewrite E5.
    match goal with
    | |- context [log_Printf ?f ?a] =>
        destruct (logs_only_emit (Printf f a) w5) as (w6 & E6 & A6)
    end.
    exists w6, (0 + 1 + 0 + 0)%nat, (1 + 0 + 1 + 1)%nat.
    split; [by eapply advanced_log|].
    unfold log_Printf, mbind, M_bind. by rewrite E6.
Qed.

End Runs.

(** ** The claims *)

(** C8: [deconfigureAddress], from any cached state, returns true, leaves
    the state [released] and [lastAPICheck] as it was, and touches nothing
    in the world: no child process, no dial, not even a log line. *)
Theorem deconfigureAddress_releases (c : HetznerConfigurer) (w : World) :
  exists c',
    deconfigureAddress c w = (Done (true, c'), w)
    /\ cachedState c' = released
    /\ lastAPICheck c' = lastAPICheck c.
Proof. exists (set_cachedState released c). by repeat split. Qed.

Section Claims.

Variable json_Unmarshal : string -> gmap string json + error.
Variable net_ParseIP : string -> GoNet.IP.
Variable IP_String : GoNet.IP -> string.

(** C5: while the cached state is [configured] or [released] and not too
    old, [queryAddress] answers from the cache: true for [configured],
    false for [released], the configurer unchanged, and no child process
    run nor dial made. *)
Theorem queryAddress_cached (c : HetznerConfigurer) (w : World) :
  cachedState c = configured \/ cachedState c = released ->
  too_old (since c w) = false ->
  exists b w',
    queryAddress json_Unmarshal net_ParseIP IP_String c w
    = (Done (b, c), w')
    /\ (b = true <-> cachedState c = configured)
    /\ runs w' = runs w /\ dials w' = dials w.
Proof.
  intros Hst Hage.
  destruct (queryAddress_hit json_Unmarshal net_ParseIP IP_String c w)
    as (w' & E & A).
  { unfold refreshes. rewrite Hage.
    destruct Hst as [-> | ->]; reflexivity. }
  exists (cachedState c =? configured), w'. split; [done|].
  split; [|destruct A as (_&_&_&Hd&_&Hr); split; [done|lia]].
  rewrite Z.eqb_eq. done.
Qed.

(** C2, as amended: a cached [configured] or [released] is trusted as long
    as at most one hour has passed since [lastAPICheck], the hour itself
    included; once two hours have passed the cached state is dropped
    (the call behaves as from [unknown]) and the provider is asked. *)
Theorem queryAddress_ttl (c : HetznerConfigurer) (w : World) :
  cachedState c = configured \/ cachedState c = released ->
  (since c w <= GoTime.Hour ->
   exists w',
     queryAddress json_Unmarshal net_ParseIP IP_String c w
     = (Done (cachedState c =? configured, c), w')
     /\ runs w' = runs w)
  /\
  (2 * GoTime.Hour <= since c w ->
   queryAddress json_Unmarshal net_ParseIP IP_String c w
   = queryAddress json_Unmarshal net_ParseIP IP_String
       (set_cachedState unknown c) w
   /\ runs (queryAddress json_Unmarshal net_ParseIP IP_String c w).2
      = curl_get IP_String c :: runs w).
Proof.
  intros Hst. split.
  - intros Hage.
    destruct (queryAddress_hit json_Unmarshal net_ParseIP IP_String c w)
      as (w' & E & A).
    { unfold refreshes.
      assert (too_old (since c w) = false) as ->.
      { apply not_too_old_iff. rewrite Hour_value in *. lia. }
      destruct Hst as [-> | ->]; reflexivity. }
    exists w'. split; [done|]. destruct A as (_&_&_&_&_&Hr). done.
  - intros Hage. apply too_old_iff in Hage.
    assert (refreshes c w = true) as Hr by (unfold refreshes; by rewrite Hage).
    destruct (queryAddress_miss json_Unmarshal net_ParseIP IP_String c w Hr)
      as (w1 & A1 & E1).
    rewrite Hage in E1.
    split.
    + destruct (time_Since_run (lastAPICheck c) w) as (w2 & E2 & _).
      unfold queryAddress, mbind, M_bind. cbn [lastAPICheck set_cachedState].
      rewrite E2. fold (since c w). by rewrite Hage.
    + rewrite E1.
      destruct (queryAddress_check_run json_Unmarshal net_ParseIP IP_String
                  (set_cachedState unknown c) w1) as (w2 & n & d & A2 & E2).
      rewrite E2. simpl.
      destruct A1 as (_&_&_&_&_&Hr1). destruct A2 as (_&_&_&_&_&Hr2).
      rewrite Hr2, Hr1. done.
Qed.

(** *** What the parser makes of a decoded body *)

Lemma parsed_unmarshal_error (str : string) (err : error) :
  json_Unmarshal str = inr err ->
  parsed json_Unmarshal net_ParseIP str = Done ([], Some err).
Proof.
  intros H. unfold parsed, getActiveIPFromJSON. rewrite H. reflexivity.
Qed.

Lemma parsed_error_record (str : string) (f m : gmap string json)
      (status : float64) (code message : string) :
  json_Unmarshal str = inl f ->
  index f "error" = JObject m ->
  index m "status" = JNumber status ->
  index m "code" = JString code ->
  index m "message" = JString message ->
  parsed json_Unmarshal net_ParseIP str
  = Done ([], Some "Hetzner API returned error response").
Proof.
  intros H He Hs Hc Hm. unfold parsed, getActiveIPFromJSON.
  rewrite H, He. cbn [not_nil verbose quiet].
  unfold mbind, M_bind. cbn [assert_map mret M_ret].
  rewrite Hs, Hc, Hm. reflexivity.
Qed.

Lemma parsed_failover_record (str : string) (f m : gmap string json)
      (ip netmask serverIP activeServerIP : string) (serverNumber : float64) :
  json_Unmarshal str = inl f ->
  index f "error" = JNull ->
  index f "failover" = JObject m ->
  index m "ip" = JString ip ->
  index m "netmask" = JString netmask ->
  index m "server_ip" = JString serverIP ->
  index m "server_number" = JNumber serverNumber ->
  index m "active_server_ip" = JString activeServerIP ->
  parsed json_Unmarshal net_ParseIP str
  = Done (net_ParseIP activeServerIP, None).
Proof.
  intros H He Hf H1 H2 H3 H4 H5. unfold parsed, getActiveIPFromJSON.
  rewrite H, He, Hf. cbn [not_nil verbose quiet].
  unfold mbind, M_bind. cbn [assert_map mret M_ret].
  rewrite H1, H2, H3, H4, H5. reflexivity.
Qed.

(** *** The refresh of [queryAddress], in terms of the reply *)

Lemma queryAddress_refresh_run (c : HetznerConfigurer) (w : World) :
  refreshes c w = true ->
  let r := read_reply IP_String c w in
  let c0 := if too_old (since c w) then set_cachedState unknown c else c in
  let c1 := match r.2 with
            | Some _ => set_cachedState unknown c0
            | None => set_lastAPICheck (clock w 1) c0
            end in
  exists w',
    runs w' = curl_get IP_String c :: runs w /\
    queryAddress json_Unmarshal net_ParseIP IP_String c w
    = (match parsed json_Unmarshal net_ParseIP r.1 with
       | Panicked s => Panicked s
       | Done p =>
           let c2 := match p.2 with
                     | Some _ => set_cachedState unknown c1
                     | None => c1
                     end in
           if GoNet.Equal p.1 (outbound w 0)
           then Done (true, set_cachedState configured c2)
           else Done (false, set_cachedState released c2)
       end, w').
Proof.
  intros Hr r c0 c1.
  destruct (queryAddress_miss json_Unmarshal net_ParseIP IP_String c w Hr)
    as (w1 & A1 & E1).
  fold c0 in E1.
  destruct (queryAddress_check_run json_Unmarshal net_ParseIP IP_String c0 w1)
    as (w2 & n & d & A2 & E2).
  assert (curl_get IP_String c0 = curl_get IP_String c) as Hargv
    by (subst c0; by destruct (too_old (since c w))).
  rewrite Hargv in *.
  assert (fetched w1 (curl_get IP_String c) = r) as Hf.
  { subst r. unfold read_reply, fetched.
    by rewrite (reply_advanced _ _ _ _ _ A1). }
  rewrite Hf in E2.
  rewrite (clock_advanced _ _ _ _ _ 0%nat A1) in E2.
  rewrite (outbound_advanced _ _ _ _ _ 0%nat A1) in E2.
  cbn [Nat.add] in E2.
  exists w2. split.
  - destruct A1 as (_&_&_&_&_&Hr1). destruct A2 as (_&_&_&_&_&Hr2).
    by rewrite Hr2, Hr1.
  - by rewrite E1, E2.
Qed.

(** C10: whenever [queryAddress] goes on to ask the provider, it returns
    with the cached state [configured] or [released], never [unknown], and
    it returns true exactly when that state is [configured].  The one way
    not to return is a panic of the parser on the reply. *)
Theorem queryAddress_refresh_settles (c : HetznerConfigurer) (w : World) :
  refreshes c w = true ->
  match queryAddress json_Unmarshal net_ParseIP IP_String c w with
  | (Done (b, c'), _) =>
      (cachedState c' = configured \/ cachedState c' = released)
      /\ cachedState c' <> unknown
      /\ (b = true <-> cachedState c' = configured)
  | (Panicked s, _) =>
      parsed json_Unmarshal net_ParseIP (read_reply IP_String c w).1
      = Panicked s
  end.
Proof.
  intros Hr.
  destruct (queryAddress_refresh_run c w Hr) as (w' & _ & E).
  rewrite E. clear E.
  destruct (parsed json_Unmarshal net_ParseIP (read_reply IP_String c w).1)
    as [p|s]; [|done].
  cbv zeta. destruct (GoNet.Equal p.1 (outbound w 0)); cbn [cachedState set_cachedState].
  - repeat split; auto; done.
  - repeat split; auto; try done.
Qed.

(** C1, as the code has it: when the read request fails in transport,
    [lastAPICheck] is indeed left alone, but the cached state does not
    stay [unknown] and the answer is not always false: the empty body
    fails to decode (as [json.Unmarshal] does on empty input), the nil
    address that results is compared with the node's own, and the call ends
    [released] and false when the node has an outbound address,
    [configured] and true when it has none. *)
Theorem queryAddress_transport_failure
        (c : HetznerConfigurer) (w : World) (err e : error) :
  refreshes c w = true ->
  (reply w (curl_get IP_String c)).2 = Some err ->
  json_Unmarshal EmptyString = inr e ->
  exists b c' w',
    queryAddress json_Unmarshal net_ParseIP IP_String c w
    = (Done (b, c'), w')
    /\ b = GoNet.is_nil (outbound w 0)
    /\ cachedState c' = (if b then configured else released)
    /\ lastAPICheck c' = lastAPICheck c
    /\ runs w' = curl_get IP_String c :: runs w.
Proof.
  intros Hr Herr He.
  destruct (queryAddress_refresh_run c w Hr) as (w' & Hruns & E).
  assert (read_reply IP_String c w = (EmptyString, Some err)) as Hreply.
  { unfold read_reply, fetched.
    destruct (reply w (curl_get IP_String c)) as [out o].
    simpl in Herr. by subst o. }
  rewrite Hreply in E. cbn [fst snd] in E.
  rewrite (parsed_unmarshal_error _ _ He) in E.
  cbv zeta in E. cbn [fst snd] in E. rewrite Equal_nil_l in E.
  exists (GoNet.is_nil (outbound w 0)).
  destruct (GoNet.is_nil (outbound w 0)); eexists; exists w';
    (split; [exact E|]); repeat split; try done;
    cbn [lastAPICheck set_cachedState];
    by destruct (too_old (since c w)).
Qed.

(** C3, as the code has it: on a well-formed error payload the refresh
    does stamp [lastAPICheck], but it ends like a transport failure:
    [released] and false when the node has an outbound address,
    [configured] and true when it has none; never [unknown]. *)
Theorem queryAddress_provider_error
        (c : HetznerConfigurer) (w : World) (out : string)
        (f m : gmap string json) (status : float64) (code message : string) :
  refreshes c w = true ->
  reply w (curl_get IP_String c) = (out, None) ->
  json_Unmarshal out = inl f ->
  index f "error" = JObject m ->
  index m "status" = JNumber status ->
  index m "code" = JString code ->
  index m "message" = JString message ->
  exists b c' w',
    queryAddress json_Unmarshal net_ParseIP IP_String c w
    = (Done (b, c'), w')
    /\ b = GoNet.is_nil (outbound w 0)
    /\ cachedState c' = (if b then configured else released)
    /\ lastAPICheck c' = clock w 1.
Proof.
  intros Hr Hreply Hf He Hs Hc Hm.
  destruct (queryAddress_refresh_run c w Hr) as (w' & Hruns & E).
  assert (read_reply IP_String c w = (out, None)) as Hread
    by (unfold read_reply, fetched; by rewrite Hreply).
  rewrite Hread in E. cbn [fst snd] in E.
  rewrite (parsed_error_record _ _ _ _ _ _ Hf He Hs Hc Hm) in E.
  cbv zeta in E. cbn [fst snd] in E. rewrite Equal_nil_l in E.
  exists (GoNet.is_nil (outbound w 0)).
  destruct (GoNet.is_nil (outbound w 0)); eexists; exists w';
    (split; [exact E|]); repeat split; try done.
Qed.

(** C6, as amended: on a body that decodes to an object without an
    [error] entry and with a [failover] object holding the five fields in
    their types, the parser returns [net.ParseIP] of [active_server_ip]
    and no error, whatever that text is: the nil address when it is not
    an IP address. *)
Theorem getActiveIPFromJSON_failover
        (c : HetznerConfigurer) (w : World) (str : string)
        (f m : gmap string json)
        (ip netmask serverIP activeServerIP : string)
        (serverNumber : float64) :
  json_Unmarshal str = inl f ->
  index f "error" = JNull ->
  index f "failover" = JObject m ->
  index m "ip" = JString ip ->
  index m "netmask" = JString netmask ->
  index m "server_ip" = JString serverIP ->
  index m "server_number" = JNumber serverNumber ->
  index m "active_server_ip" = JString activeServerIP ->
  (getActiveIPFromJSON json_Unmarshal net_ParseIP c str w).1
  = Done (net_ParseIP activeServerIP, None).
Proof.
  intros H He Hf H1 H2 H3 H4 H5.
  destruct (getActiveIPFromJSON_run json_Unmarshal net_ParseIP c str w)
    as (w' & E & _).
  rewrite E. cbn [fst].
  by eapply parsed_failover_record.
Qed.

(** *** [runAddressConfiguration], in terms of the reply *)

Lemma runAddressConfiguration_summary (c : HetznerConfigurer)
      (action : string) (w : World) :
  exists w',
    runAddressConfiguration json_Unmarshal net_ParseIP IP_String c action w
    = (match write_reply IP_String c w with
       | (_, Some _) => Done (false, set_cachedState unknown c)
       | (out, None) =>
           match parsed json_Unmarshal net_ParseIP out with
           | Panicked s => Panicked s
           | Done (_, Some _) => Done (false, set_cachedState unknown c)
           | Done (ip, None) =>
               if GoNet.Equal ip (outbound w 1)
               then Done (true, set_cachedState configured
                                  (set_lastAPICheck (clock w 0) c))
               else Done (false, set_cachedState unknown
                                   (set_lastAPICheck (clock w 0) c))
           end
       end, w').
Proof.
  destruct (runAddressConfiguration_run json_Unmarshal net_ParseIP IP_String
              c action w) as (w' & n & d & _ & E).
  exists w'. rewrite E. f_equal. unfold write_reply.
  destruct (if GoNet.is_nil (outbound w 0) then _ else _)
    as [out [err|]]; cbn [fst snd]; [done|].
  destruct (parsed json_Unmarshal net_ParseIP out) as [[ip [e|]]|s]; done.
Qed.

(** C7, as amended: [queryAddress] stamps [lastAPICheck] exactly when it
    asks the provider and the transport succeeds, whether or not the body
    then parses; [configureAddress] stamps it exactly when the transport
    succeeds and the body parses without error; [deconfigureAddress]
    never does.  No operation stamps it when the transport fails. *)
Theorem lastAPICheck_stamping (c : HetznerConfigurer) (w : World) :
  (match queryAddress json_Unmarshal net_ParseIP IP_String c w with
   | (Done (_, c'), _) =>
       lastAPICheck c'
       = if refreshes c w
         then match (read_reply IP_String c w).2 with
              | None => clock w 1
              | Some _ => lastAPICheck c
              end
         else lastAPICheck c
   | (Panicked s, _) =>
       refreshes c w = true
       /\ parsed json_Unmarshal net_ParseIP (read_reply IP_String c w).1
          = Panicked s
   end)
  /\
  (match configureAddress json_Unmarshal net_ParseIP IP_String c w with
   | (Done (_, c'), _) =>
       lastAPICheck c'
       = match (write_reply IP_String c w).2,
               parsed json_Unmarshal net_ParseIP (write_reply IP_String c w).1
         with
         | None, Done (_, None) => clock w 0
         | _, _ => lastAPICheck c
         end
   | (Panicked s, _) =>
       (write_reply IP_String c w).2 = None
       /\ parsed json_Unmarshal net_ParseIP (write_reply IP_String c w).1
          = Panicked s
   end)
  /\
  (match deconfigureAddress c w with
   | (Done (_, c'), _) => lastAPICheck c' = lastAPICheck c
   | (Panicked _, _) => False
   end).
Proof.
  split; [|split; [|reflexivity]].
  - destruct (refreshes c w) eqn:Hr.
    + destruct (queryAddress_refresh_run c w Hr) as (w' & _ & E).
      rewrite E. clear E.
      destruct (parsed json_Unmarshal net_ParseIP (read_reply IP_String c w).1)
        as [[ip e]|s]; [|done].
      cbv zeta. cbn [fst snd].
      destruct (GoNet.Equal ip (outbound w 0)), e,
        ((read_reply IP_String c w).2), (too_old (since c w)); reflexivity.
    + destruct (queryAddress_hit json_Unmarshal net_ParseIP IP_String c w Hr)
        as (w' & E & _).
      by rewrite E.
  - unfold configureAddress.
    destruct (runAddressConfiguration_summary c "set" w) as (w' & E).
    rewrite E. clear E.
    destruct (write_reply IP_String c w) as [out [err|]]; cbn [fst snd];
      [done|].
    destruct (parsed json_Unmarshal net_ParseIP out) as [[ip [e|]]|s];
      [done| |done].
    by destruct (GoNet.Equal ip (outbound w 1)).
Qed.

(** *** [configureAddress] against the node's address *)

(** A write that succeeds and parses to an address other than the node's
    ends false and [unknown]. *)
Lemma configureAddress_mismatch (c : HetznerConfigurer) (w : World)
      (out : string) (ip : GoNet.IP) :
  write_reply IP_String c w = (out, None) ->
  parsed json_Unmarshal net_ParseIP out = Done (ip, None) ->
  GoNet.Equal ip (outbound w 1) = false ->
  exists c' w',
    configureAddress json_Unmarshal net_ParseIP IP_String c w
    = (Done (false, c'), w')
    /\ cachedState c' = unknown.
Proof.
  intros Hw Hp Hne. unfold configureAddress.
  destruct (runAddressConfiguration_summary c "set" w) as (w' & E).
  rewrite Hw, Hp, Hne in E.
  by eexists _, w'.
Qed.

(** It ends true only after a write that succeeded and parsed to an
    address that [Equal] identifies with the one dialled next. *)
Lemma configureAddress_true_only (c c' : HetznerConfigurer) (w w' : World) :
  configureAddress json_Unmarshal net_ParseIP IP_String c w
  = (Done (true, c'), w') ->
  exists out ip,
    write_reply IP_String c w = (out, None)
    /\ parsed json_Unmarshal net_ParseIP out = Done (ip, None)
    /\ GoNet.Equal ip (outbound w 1) = true
    /\ cachedState c' = configured.
Proof.
  unfold configureAddress.
  destruct (runAddressConfiguration_summary c "set" w) as (w2 & E).
  rewrite E. clear E.
  destruct (write_reply IP_String c w) as [out [err|]];
    [intros; simplify_eq|].
  destruct (parsed json_Unmarshal net_ParseIP out) as [[ip [e|]]|s] eqn:Hp;
    try (intros; simplify_eq; fail).
  destruct (GoNet.Equal ip (outbound w 1)) eqn:Heq; intros; simplify_eq.
  exists out, ip. repeat split; done.
Qed.

(** C4, where the code departs from it: after a write that succeeded, a
    reply whose [active_server_ip] is no IP address parses to the nil
    address without error; if the dial that follows finds no route, nil
    is compared with nil and [configureAddress] ends true and
    [configured]. *)
Theorem configureAddress_nil_equals_nil (c : HetznerConfigurer) (w : World)
        (out : string) :
  write_reply IP_String c w = (out, None) ->
  parsed json_Unmarshal net_ParseIP out = Done ([], None) ->
  outbound w 1 = [] ->
  exists c' w',
    configureAddress json_Unmarshal net_ParseIP IP_String c w
    = (Done (true, c'), w')
    /\ cachedState c' = configured.
Proof.
  intros Hw Hp Hnil. unfold configureAddress.
  destruct (runAddressConfiguration_summary c "set" w) as (w' & E).
  rewrite Hw, Hp, Hnil, Equal_nil_l in E. cbn [GoNet.is_nil] in E.
  eexists _, w'. split; [exact E|reflexivity].
Qed.

(** C9: with the verbose flag set, whenever [curlQueryFailover] issues a
    request, reading or writing, the command run carries the user name
    and the real password, the line logged last shows that very command
    with the marker in the place of the password, and the log as a whole
    is the same whatever the password is. *)
Theorem request_log_redacted (c : HetznerConfigurer) (post : bool)
        (w : World) (argv : list string) :
  verbose c = true ->
  runs (curlQueryFailover IP_String c post w).2 = argv :: runs w ->
  credentials argv = username c +:+ ":" +:+ password c
  /\ (exists format,
        head (logged (curlQueryFailover IP_String c post w).2)
        = Some (Printf format
                  (map AString
                     (<[3%nat := username c +:+ ":" +:+ redacted]> argv))))
  /\ (forall p,
        logged (curlQueryFailover IP_String (set_password p c) post w).2
        = logged (curlQueryFailover IP_String c post w).2).
Proof.
  intros Hv.
  unfold curlQueryFailover, run_curl, getOutboundIP, net_Dial, exec_Output,
    log_Printf, log_Println, log_emit, mbind, M_bind, mret, M_ret.
  cbn [verbose set_password]. rewrite Hv.
  destruct post.
  - destruct (route w (dials w)) as [own|err];
      cbn [runs logged process route dials fst snd].
    + destruct (GoNet.is_nil own);
        cbn [runs logged process route dials fst snd].
      { intros H. apply (f_equal length) in H. simpl in H. lia. }
      repeat match goal with
             | |- context [process w ?n ?a] =>
                 destruct (process w n a) as [? [?|]]
             end;
        cbn [runs logged fst snd]; intros H; simplify_eq;
        (split; [reflexivity|]); (split; [eexists; reflexivity|]);
        intros p;
        repeat match goal with
               | |- context [process w ?n ?a] =>
                   destruct (process w n a) as [? [?|]]
               end; reflexivity.
    + intros H. apply (f_equal length) in H. simpl in H. lia.
  - cbn [runs logged process route dials fst snd].
    repeat match goal with
           | |- context [process w ?n ?a] =>
               destruct (process w n a) as [? [?|]]
           end;
      cbn [runs logged fst snd]; intros H; simplify_eq;
      (split; [reflexivity|]); (split; [eexists; reflexivity|]);
      intros p;
      repeat match goal with
             | |- context [process w ?n ?a] =>
                 destruct (process w n a) as [? [?|]]
             end; reflexivity.
Qed.

End Claims.

(** ** The claims on the sample inputs *)

Import Sample.

(** C5 at half past nine: the node believes itself [configured] since thirty
    minutes and the provider names another server. *)
Lemma queryAddress_cached_witness :
  (cachedState (node configured half_past_nine) = configured
   \/ cachedState (node configured half_past_nine) = released)
  /\ too_old (since (node configured half_past_nine) w_other) = false
  /\ exists b w',
      queryAddress' (node configured half_past_nine) w_other
      = (Done (b, node configured half_past_nine), w')
      /\ (b = true <-> cachedState (node configured half_past_nine) = configured)
      /\ runs w' = runs w_other /\ dials w' = dials w_other.
Proof.
  split; [left; reflexivity|]. split; [reflexivity|].
  apply queryAddress_cached; [left; reflexivity|reflexivity].
Defined.

(** C2, refuted as stated: exactly one hour after the last check the cached
    [configured] is still trusted.  The provider would name another owner,
    but no child process is run and the answer is true. *)
Lemma one_hour_old_cache_is_trusted :
  since (node configured nine) w_other = GoTime.Hour
  /\ (queryAddress' (node configured nine) w_other).1
     = Done (true, node configured nine)
  /\ runs (queryAddress' (node configured nine) w_other).2 = [].
Proof. repeat split; vm_compute; reflexivity. Qed.

(** C2, as amended, at nine o'clock sharp: the cache is one hour old. *)
Lemma queryAddress_ttl_witness :
  (cachedState (node configured nine) = configured
   \/ cachedState (node configured nine) = released)
  /\ (since (node configured nine) w_other <= GoTime.Hour ->
      exists w',
        queryAddress' (node configured nine) w_other
        = (Done (cachedState (node configured nine) =? configured,
                 node configured nine), w')
        /\ runs w' = runs w_other)
  /\ (2 * GoTime.Hour <= since (node configured nine) w_other ->
      queryAddress' (node configured nine) w_other
      = queryAddress' (set_cachedState unknown (node configured nine)) w_other
      /\ runs (queryAddress' (node configured nine) w_other).2
         = curl_get GoLib.IP_String (node configured nine) :: runs w_other).
Proof.
  split; [left; reflexivity|].
  apply queryAddress_ttl. left; reflexivity.
Defined.

(** C10 on a node in state [unknown] that the provider names as owner. *)
Lemma queryAddress_refresh_settles_witness :
  refreshes (node unknown ten_to_ten) w_own = true
  /\ match queryAddress' (node unknown ten_to_ten) w_own with
     | (Done (b, c'), _) =>
         (cachedState c' = configured \/ cachedState c' = released)
         /\ cachedState c' <> unknown
         /\ (b = true <-> cachedState c' = configured)
     | (Panicked s, _) =>
         parsed' (read_reply GoLib.IP_String (node unknown ten_to_ten) w_own).1
         = Panicked s
     end.
Proof.
  split; [reflexivity|].
  apply queryAddress_refresh_settles. reflexivity.
Defined.

(** C1 with the network down: [curl] fails and so does the dial. *)
Lemma queryAddress_transport_failure_witness :
  refreshes (node unknown ten_to_ten) w_down = true
  /\ (reply w_down (curl_get GoLib.IP_String (node unknown ten_to_ten))).2
     = Some "exit status 7"
  /\ GoLib.json_Unmarshal EmptyString = inr "invalid JSON input"
  /\ exists b c' w',
      queryAddress' (node unknown ten_to_ten) w_down = (Done (b, c'), w')
      /\ b = GoNet.is_nil (outbound w_down 0)
      /\ cachedState c' = (if b then configured else released)
      /\ lastAPICheck c' = lastAPICheck (node unknown ten_to_ten)
      /\ runs w'
         = curl_get GoLib.IP_String (node unknown ten_to_ten) :: runs w_down.
Proof.
  split; [reflexivity|]. split; [reflexivity|]. split; [reflexivity|].
  eapply queryAddress_transport_failure; reflexivity.
Defined.

(** C1 on the samples.  With the network down the failed refresh answers
    true and leaves [configured]. *)
Example network_down_reports_ownership :
  (queryAddress' (node unknown ten_to_ten) w_down).1
  = Done (true, node configured ten_to_ten).
Proof. vm_compute. reflexivity. Qed.

(** With only [curl] failing it answers false and leaves [released], so
    that the next call, still within the hour, answers false from the cache
    and runs no second request. *)
Example failed_refresh_is_not_retried :
  let first := queryAddress' (node unknown ten_to_ten) w_curl_failed in
  first.1 = Done (false, node released ten_to_ten)
  /\ length (runs first.2) = 1%nat
  /\ (queryAddress' (node released ten_to_ten) first.2).1
     = Done (false, node released ten_to_ten)
  /\ length (runs (queryAddress' (node released ten_to_ten) first.2).2)
     = 1%nat.
Proof. repeat split; vm_compute; reflexivity. Qed.

(** C3 on the sample error record. *)
Lemma queryAddress_provider_error_witness :
  refreshes (node unknown ten_to_ten) w_error = true
  /\ reply w_error (curl_get GoLib.IP_String (node unknown ten_to_ten))
     = (error_body, None)
  /\ GoLib.json_Unmarshal error_body = inl {[ "error" := JObject error_record ]}
  /\ index {[ "error" := JObject error_record ]} "error" = JObject error_record
  /\ index error_record "status"
     = JNumber (GoLib.decimal_to_float64 false 401 0)
  /\ index error_record "code" = JString "UNAUTHORIZED"
  /\ index error_record "message" = JString "Unauthorized"
  /\ exists b c' w',
      queryAddress' (node unknown ten_to_ten) w_error = (Done (b, c'), w')
      /\ b = GoNet.is_nil (outbound w_error 0)
      /\ cachedState c' = (if b then configured else released)
      /\ lastAPICheck c' = clock w_error 1.
Proof.
  assert (GoLib.json_Unmarshal error_body
          = inl {[ "error" := JObject error_record ]}) as Hf
    by (vm_compute; reflexivity).
  split; [reflexivity|]. split; [reflexivity|]. split; [exact Hf|].
  split; [reflexivity|]. split; [reflexivity|]. split; [reflexivity|].
  split; [reflexivity|].
  eapply queryAddress_provider_error; [reflexivity|reflexivity|exact Hf|..];
    reflexivity.
Defined.

(** C3 on the sample: the error record leaves [released], not [unknown]. *)
Example provider_error_leaves_released :
  (queryAddress' (node unknown ten_to_ten) w_error).1
  = Done (false, node released ten).
Proof. vm_compute. reflexivity. Qed.

(** C6, refuted as stated: a failover record whose [active_server_ip] is no
    IP address does not make the parser fail; it returns the nil address
    and no error. *)
Lemma invalid_active_server_ip_is_no_error :
  GoLib.json_Unmarshal (failover_body "not-an-ip")
  = inl {[ "failover" := JObject (failover_record "not-an-ip") ]}
  /\ GoLib.net_ParseIP "not-an-ip" = []
  /\ (getActiveIPFromJSON GoLib.json_Unmarshal GoLib.net_ParseIP
        (node unknown ten_to_ten) (failover_body "not-an-ip") blank).1
     = Done ([], None).
Proof. repeat split; vm_compute; reflexivity. Qed.

(** C6, as amended, on a failover record that names no IP address. *)
Lemma getActiveIPFromJSON_failover_witness :
  GoLib.json_Unmarshal (failover_body "not-an-ip")
  = inl {[ "failover" := JObject (failover_record "not-an-ip") ]}
  /\ index {[ "failover" := JObject (failover_record "not-an-ip") ]} "error"
     = JNull
  /\ index {[ "failover" := JObject (failover_record "not-an-ip") ]} "failover"
     = JObject (failover_record "not-an-ip")
  /\ index (failover_record "not-an-ip") "ip" = JString "203.0.113.10"
  /\ index (failover_record "not-an-ip") "netmask" = JString "255.255.255.255"
  /\ index (failover_record "not-an-ip") "server_ip" = JString "192.0.2.7"
  /\ index (failover_record "not-an-ip") "server_number"
     = JNumber (GoLib.decimal_to_float64 false 321 0)
  /\ index (failover_record "not-an-ip") "active_server_ip"
     = JString "not-an-ip"
  /\ (getActiveIPFromJSON GoLib.json_Unmarshal GoLib.net_ParseIP
        (node unknown ten_to_ten) (failover_body "not-an-ip") blank).1
     = Done (GoLib.net_ParseIP "not-an-ip", None).
Proof.
  assert (GoLib.json_Unmarshal (failover_body "not-an-ip")
          = inl {[ "failover" := JObject (failover_record "not-an-ip") ]})
    as Hf by (vm_compute; reflexivity).
  split; [exact Hf|]. do 7 (split; [reflexivity|]).
  eapply getActiveIPFromJSON_failover; [exact Hf|..]; reflexivity.
Defined.

(** C7, refuted as stated: the provider is reached but answers with a page
    that is no JSON; the body fails to parse, and [queryAddress] has
    stamped [lastAPICheck] all the same. *)
Lemma unparsed_reply_is_stamped :
  parsed' (read_reply GoLib.IP_String (node unknown ten_to_ten) w_page).1
  = Done ([], Some "invalid JSON input")
  /\ (queryAddress' (node unknown ten_to_ten) w_page).1
     = Done (false, node released ten)
  /\ lastAPICheck (node released ten) <> lastAPICheck (node unknown ten_to_ten).
Proof. repeat split; try (vm_compute; reflexivity). vm_compute. discriminate. Qed.

(** C4 where the route is lost between the request and the comparison. *)
Lemma configureAddress_nil_equals_nil_witness :
  write_reply GoLib.IP_String (node unknown ten_to_ten) w_lost
  = (failover_body EmptyString, None)
  /\ parsed' (failover_body EmptyString) = Done ([], None)
  /\ outbound w_lost 1 = []
  /\ exists c' w',
      configureAddress' (node unknown ten_to_ten) w_lost
      = (Done (true, c'), w')
      /\ cachedState c' = configured.
Proof.
  assert (parsed' (failover_body EmptyString) = Done ([], None)) as Hp
    by (vm_compute; reflexivity).
  split; [reflexivity|]. split; [exact Hp|]. split; [reflexivity|].
  eapply configureAddress_nil_equals_nil; [reflexivity|exact Hp|reflexivity].
Defined.

(** C4 on the samples: the write is issued in this node's name, the
    provider's record names no address, the route is gone at the
    comparison, and the call reports success. *)
Example lost_route_reports_success :
  runs (configureAddress' (node unknown ten_to_ten) w_lost).2
  = [["curl"; "--ipv4"; "-u"; "robot:hunter2";
      "https://robot-ws.your-server.de/failover/203.0.113.10";
      "-d"; "active_server_ip=192.0.2.7"]]
  /\ (configureAddress' (node unknown ten_to_ten) w_lost).1
     = Done (true, node configured ten).
Proof. split; vm_compute; reflexivity. Qed.

(** Where the node's address is known at the comparison, another address
    in the record is reported as a failure. *)
Example other_owner_reports_failure :
  (configureAddress' (node unknown ten_to_ten) w_other).1
  = Done (false, node unknown ten).
Proof. vm_compute. reflexivity. Qed.

(** C9 on the read request of the sample node. *)
Lemma request_log_redacted_witness :
  verbose (node unknown ten_to_ten) = true
  /\ runs (curlQueryFailover GoLib.IP_String (node unknown ten_to_ten)
             false w_own).2
     = ["curl"; "--ipv4"; "-u"; "robot:hunter2";
        "https://robot-ws.your-server.de/failover/203.0.113.10"]
       :: runs w_own
  /\ credentials ["curl"; "--ipv4"; "-u"; "robot:hunter2";
                  "https://robot-ws.your-server.de/failover/203.0.113.10"]
     = username (node unknown ten_to_ten) +:+ ":"
       +:+ password (node unknown ten_to_ten)
  /\ (exists format,
        head (logged (curlQueryFailover GoLib.IP_String
                        (node unknown ten_to_ten) false w_own).2)
        = Some (Printf format
                  (map AString
                     (<[3%nat := username (node unknown ten_to_ten) +:+ ":"
                                 +:+ redacted]>
                        ["curl"; "--ipv4"; "-u"; "robot:hunter2";
                         "https://robot-ws.your-server.de/failover/203.0.113.10"]))))
  /\ (forall p,
        logged (curlQueryFailover GoLib.IP_String
                  (set_password p (node unknown ten_to_ten)) false w_own).2
        = logged (curlQueryFailover GoLib.IP_String
                    (node unknown ten_to_ten) false w_own).2).
Proof.
  split; [reflexivity|]. split; [reflexivity|].
  apply request_log_redacted; reflexivity.
Defined.

(** C9 on the sample: the line logged for the read request. *)
Example read_request_as_logged :
  head (logged (curlQueryFailover GoLib.IP_String
                  (node unknown ten_to_ten) false w_own).2)
  = Some (Printf "%s %s %s %s %s"
            [AString "curl"; AString "--ipv4"; AString "-u";
             AString "robot:XXXXXX";
             AString "https://robot-ws.your-server.de/failover/203.0.113.10"]).
Proof. vm_compute. reflexivity. Qed.

(** * Further properties of the configurer *)

Section Parser.

Variable json_Unmarshal : string -> gmap string json + error.
Variable net_ParseIP : string -> GoNet.IP.

(** The parser on a decoded object, case by case on what its two entries
    hold. *)
Lemma parsed_decoded (str : string) (f : gmap string json) :
  json_Unmarshal str = inl f ->
  match index f "error" with
  | JNull =>
      match index f "failover" with
      | JNull =>
          parsed json_Unmarshal net_ParseIP str
          = Done ([], Some "why did we end up here?")
      | JObject m =>
          if failover_fields_typed m then
            exists a, index m "active_server_ip" = JString a
                      /\ parsed json_Unmarshal net_ParseIP str
                         = Done (net_ParseIP a, None)
          else exists s, parsed json_Unmarshal net_ParseIP str = Panicked s
      | _ => exists s, parsed json_Unmarshal net_ParseIP str = Panicked s
      end
  | JObject m =>
      if error_fields_typed m then
        parsed json_Unmarshal net_ParseIP str
        = Done ([], Some "Hetzner API returned error response")
      else exists s, parsed json_Unmarshal net_ParseIP str = Panicked s
  | _ => exists s, parsed json_Unmarshal net_ParseIP str = Panicked s
  end.
Proof.
  intros H. unfold parsed, getActiveIPFromJSON. rewrite H.
  cbn [verbose quiet]. unfold mbind at 1, M_bind at 1. cbn [mret M_ret].
  destruct (index f "error") as [| | | | |m]; cbn [not_nil];
    try (eexists; reflexivity; fail).
  - destruct (index f "failover") as [| | | | |m]; cbn [not_nil];
      try reflexivity; try (eexists; reflexivity; fail).
    unfold failover_fields_typed, mbind, M_bind. cbn [assert_map mret M_ret].
    destruct (index m "ip"); cbn; try (eexists; reflexivity; fail).
    destruct (index m "netmask"); cbn; try (eexists; reflexivity; fail).
    destruct (index m "server_ip"); cbn; try (eexists; reflexivity; fail).
    destruct (index m "server_number"); cbn; try (eexists; reflexivity; fail).
    destruct (index m "active_server_ip"); cbn; try (eexists; reflexivity; fail).
    eexists. split; reflexivity.
  - unfold error_fields_typed, mbind, M_bind. cbn [assert_map mret M_ret].
    destruct (index m "status"); cbn; try (eexists; reflexivity; fail).
    destruct (index m "code"); cbn; try (eexists; reflexivity; fail).
    destruct (index m "message"); cbn; first [reflexivity|eexists; reflexivity].
Qed.

(** X1: whenever the parser returns an error it returns the nil address
    with it; an address and an error never come together. *)
Theorem getActiveIPFromJSON_error_has_no_address
        (c : HetznerConfigurer) (str : string) (w : World)
        (ip : GoNet.IP) (e : error) :
  (getActiveIPFromJSON json_Unmarshal net_ParseIP c str w).1
  = Done (ip, Some e) ->
  ip = [].
Proof.
  destruct (getActiveIPFromJSON_run json_Unmarshal net_ParseIP c str w)
    as (w' & E & _).
  rewrite E. cbn [fst]. clear E.
  destruct (json_Unmarshal str) as [f|err] eqn:Hd.
  - pose proof (parsed_decoded str f Hd) as H.
    destruct (index f "error") as [| | | | |m].
    + destruct (index f "failover") as [| | | | |m];
        try (match type of H with
             | ex _ => destruct H as [? H]; rewrite H; discriminate
             end).
      * rewrite H. intros; by simplify_eq.
      * destruct (failover_fields_typed m).
        -- destruct H as (a & _ & ->). discriminate.
        -- destruct H as [? ->]. discriminate.
    + destruct H as [? ->]. discriminate.
    + destruct H as [? ->]. discriminate.
    + destruct H as [? ->]. discriminate.
    + destruct H as [? ->]. discriminate.
    + destruct (error_fields_typed m).
      * rewrite H. intros; by simplify_eq.
      * destruct H as [? ->]. discriminate.
  - rewrite (parsed_unmarshal_error json_Unmarshal net_ParseIP _ _ Hd).
    intros; by simplify_eq.
Qed.

(** X2: a body that decodes to an object with neither an [error] nor a
    [failover] entry (or with both null, as the empty object and [null]
    do) is answered with an error and the nil address, without a panic. *)
Theorem getActiveIPFromJSON_neither_entry
        (c : HetznerConfigurer) (str : string) (w : World)
        (f : gmap string json) :
  json_Unmarshal str = inl f ->
  index f "error" = JNull ->
  index f "failover" = JNull ->
  (getActiveIPFromJSON json_Unmarshal net_ParseIP c str w).1
  = Done ([], Some "why did we end up here?").
Proof.
  intros Hd He Hf.
  destruct (getActiveIPFromJSON_run json_Unmarshal net_ParseIP c str w)
    as (w' & E & _).
  rewrite E. cbn [fst].
  pose proof (parsed_decoded str f Hd) as H. by rewrite He, Hf in H.
Qed.

(** X3: the [error] entry is looked at first: with a well-typed error
    record the parser reports the provider's error whatever the [failover]
    entry holds, a valid record of this node included. *)
Theorem getActiveIPFromJSON_error_first
        (c : HetznerConfigurer) (str : string) (w : World)
        (f m : gmap string json) :
  json_Unmarshal str = inl f ->
  index f "error" = JObject m ->
  error_fields_typed m = true ->
  (getActiveIPFromJSON json_Unmarshal net_ParseIP c str w).1
  = Done ([], Some "Hetzner API returned error response").
Proof.
  intros Hd He Hm.
  destruct (getActiveIPFromJSON_run json_Unmarshal net_ParseIP c str w)
    as (w' & E & _).
  rewrite E. cbn [fst].
  pose proof (parsed_decoded str f Hd) as H. by rewrite He, Hm in H.
Qed.

(** X4: on a body that decodes, the parser panics exactly when one of the
    type assertions it reaches fails: an [error] or [failover] entry that
    is no object, or a field of the record that is missing, null or of
    another type. *)
Theorem getActiveIPFromJSON_panics_iff
        (c : HetznerConfigurer) (str : string) (w : World)
        (f : gmap string json) :
  json_Unmarshal str = inl f ->
  (exists s,
     (getActiveIPFromJSON json_Unmarshal net_ParseIP c str w).1 = Panicked s)
  <-> assertions_hold f = false.
Proof.
  intros Hd.
  destruct (getActiveIPFromJSON_run json_Unmarshal net_ParseIP c str w)
    as (w' & E & _).
  rewrite E. cbn [fst]. clear E.
  pose proof (parsed_decoded str f Hd) as H. unfold assertions_hold.
  destruct (index f "error") as [| | | | |m].
  - destruct (index f "failover") as [| | | | |m];
      try (split; [reflexivity|intros _; exact H]).
    + rewrite H. split; [intros [? ?]; discriminate|discriminate].
    + destruct (failover_fields_typed m).
      * destruct H as (a & _ & ->).
        split; [intros [? ?]; discriminate|discriminate].
      * split; [reflexivity|intros _; exact H].
  - split; [reflexivity|intros _; exact H].
  - split; [reflexivity|intros _; exact H].
  - split; [reflexivity|intros _; exact H].
  - split; [reflexivity|intros _; exact H].
  - destruct (error_fields_typed m).
    + rewrite H. split; [intros [? ?]; discriminate|discriminate].
    + split; [reflexivity|intros _; exact H].
Qed.

(** X5: a body that does not decode never makes the parser panic: it logs
    the decoder's error and returns it with the nil address.  The empty
    body of a failed request is such a body. *)
Theorem getActiveIPFromJSON_undecodable
        (c : HetznerConfigurer) (str : string) (w : World) (err : error) :
  json_Unmarshal str = inr err ->
  (getActiveIPFromJSON json_Unmarshal net_ParseIP c str w).1
  = Done ([], Some err)
  /\ head (logged (getActiveIPFromJSON json_Unmarshal net_ParseIP c str w).2)
     = Some (Println [AError err]).
Proof.
  intros Hd. unfold getActiveIPFromJSON. rewrite Hd.
  unfold log_Printf, log_Println, log_emit, mbind, M_bind, mret, M_ret.
  by destruct (verbose c).
Qed.

(** X6: the parser reads no clock, dials nothing and runs no process: it
    changes the world in its log only, and what it returns depends on the
    body alone, not on the configurer or the world. *)
Theorem getActiveIPFromJSON_reads_nothing
        (c c' : HetznerConfigurer) (str : string) (w w' : World) :
  (getActiveIPFromJSON json_Unmarshal net_ParseIP c str w).1
  = (getActiveIPFromJSON json_Unmarshal net_ParseIP c' str w').1
  /\ advanced w (getActiveIPFromJSON json_Unmarshal net_ParseIP c str w).2
              0 0 [].
Proof.
  destruct (getActiveIPFromJSON_run json_Unmarshal net_ParseIP c str w)
    as (w1 & E1 & A1).
  destruct (getActiveIPFromJSON_run json_Unmarshal net_ParseIP c' str w')
    as (w2 & E2 & _).
  by rewrite E1, E2.
Qed.

End Parser.

Section Operations.

Variable json_Unmarshal : string -> gmap string json + error.
Variable net_ParseIP : string -> GoNet.IP.
Variable IP_String : GoNet.IP -> string.

(** What each operation leaves of the configurer it is given, and which
    child processes it has run when it ends, by a return or by a panic. *)
Lemma queryAddress_frame (c : HetznerConfigurer) (w : World) :
  (runs (queryAddress json_Unmarshal net_ParseIP IP_String c w).2
   = if refreshes c w then curl_get IP_String c :: runs w else runs w)
  /\ forall b c' w',
      queryAddress json_Unmarshal net_ParseIP IP_String c w
      = (Done (b, c'), w') ->
      same_settings c c'
      /\ (if refreshes c w
          then cachedState c' = (if b then configured else released)
          else c' = c).
Proof.
  destruct (refreshes c w) eqn:Hr.
  - destruct (queryAddress_refresh_run json_Unmarshal net_ParseIP IP_String
                c w Hr) as (w1 & Hruns & E).
    rewrite E. split; [exact Hruns|]. clear E.
    intros b c' w'.
    destruct (parsed json_Unmarshal net_ParseIP (read_reply IP_String c w).1)
      as [[ip e]|s]; [|discriminate].
    cbv zeta. cbn [fst snd].
    destruct (GoNet.Equal ip (outbound w 0)); intros H; simplify_eq;
      (split; [|reflexivity]);
      destruct e, ((read_reply IP_String c w).2), (too_old (since c w));
      by repeat split.
  - destruct (queryAddress_hit json_Unmarshal net_ParseIP IP_String c w Hr)
      as (w1 & E & A).
    rewrite E. split.
    + by destruct A as (_&_&_&_&_&?).
    + intros b c' w' H. simplify_eq. by repeat split.
Qed.

Lemma configureAddress_frame (c : HetznerConfigurer) (w : World) :
  (runs (configureAddress json_Unmarshal net_ParseIP IP_String c w).2
   = if GoNet.is_nil (outbound w 0) then runs w
     else curl_post IP_String c (outbound w 0) :: runs w)
  /\ forall b c' w',
      configureAddress json_Unmarshal net_ParseIP IP_String c w
      = (Done (b, c'), w') ->
      same_settings c c'
      /\ cachedState c' = (if b then configured else unknown).
Proof.
  unfold configureAddress.
  destruct (runAddressConfiguration_run json_Unmarshal net_ParseIP IP_String
              c "set" w) as (w1 & n & d & A & E).
  rewrite E. split.
  - destruct A as (_&_&_&_&_&Hr). cbn [snd]. rewrite Hr.
    by destruct (GoNet.is_nil (outbound w 0)).
  - clear E A. intros b c' w'.
    destruct (if GoNet.is_nil (outbound w 0) then _ else _) as [out [err|]];
      cbn [fst snd]; [intros H; simplify_eq; by repeat split|].
    destruct (parsed json_Unmarshal net_ParseIP out) as [[ip [e|]]|s];
      cbn [fst snd];
      [intros H; simplify_eq; by repeat split| |discriminate].
    cbv zeta. destruct (GoNet.Equal ip (outbound w 1));
      intros H; simplify_eq; by repeat split.
Qed.

(** X7: [queryAddress] runs at most one child process, the read request,
    and runs it exactly when it goes on to ask the provider; it never
    issues the write request.  This holds for the world it leaves on a
    panic as well. *)
Theorem queryAddress_requests (c : HetznerConfigurer) (w : World) :
  runs (queryAddress json_Unmarshal net_ParseIP IP_String c w).2
  = if refreshes c w then curl_get IP_String c :: runs w else runs w.
Proof. apply queryAddress_frame. Qed.

(** X8: [configureAddress] runs exactly one child process, the write
    request in the name of the address found by its first dial, unless that
    dial finds none, in which case it runs nothing; it never issues the
    read request. *)
Theorem configureAddress_requests (c : HetznerConfigurer) (w : World) :
  runs (configureAddress json_Unmarshal net_ParseIP IP_String c w).2
  = if GoNet.is_nil (outbound w 0) then runs w
    else curl_post IP_String c (outbound w 0) :: runs w.
Proof. apply configureAddress_frame. Qed.

(** X9: when the node's own address cannot be determined,
    [configureAddress] gives up before any request: it returns false,
    leaves [unknown] and [lastAPICheck] as it was, and runs nothing. *)
Theorem configureAddress_without_route (c : HetznerConfigurer) (w : World) :
  outbound w 0 = [] ->
  exists w',
    configureAddress json_Unmarshal net_ParseIP IP_String c w
    = (Done (false, set_cachedState unknown c), w')
    /\ runs w' = runs w.
Proof.
  intros Hnil. unfold configureAddress.
  destruct (runAddressConfiguration_run json_Unmarshal net_ParseIP IP_String
              c "set" w) as (w1 & n & d & A & E).
  rewrite Hnil in A, E. cbn [GoNet.is_nil fst snd] in A, E.
  exists w1. split; [exact E|]. by destruct A as (_&_&_&_&_&?).
Qed.

(** X10: [configureAddress] returns true exactly when it leaves
    [configured]; in every other case it leaves [unknown], and it never
    leaves [released]. *)
Theorem configureAddress_outcome
        (c c' : HetznerConfigurer) (w w' : World) (b : bool) :
  configureAddress json_Unmarshal net_ParseIP IP_String c w
  = (Done (b, c'), w') ->
  cachedState c' = (if b then configured else unknown)
  /\ cachedState c' <> released.
Proof.
  intros H. apply configureAddress_frame in H as [_ H].
  split; [exact H|]. rewrite H. by destruct b.
Qed.

(** X11: [curlQueryFailover] never panics, and when it returns an error the
    body it returns is empty: whatever the failed process had written is
    dropped. *)
Theorem curlQueryFailover_error_has_no_body
        (c : HetznerConfigurer) (post : bool) (w : World) :
  exists body err w',
    curlQueryFailover IP_String c post w = (Done (body, err), w')
    /\ (err <> None -> body = EmptyString).
Proof.
  assert (forall argv, (fetched w argv).2 <> None ->
                       (fetched w argv).1 = EmptyString) as Hf.
  { intros argv. unfold fetched.
    by destruct (reply w argv) as [out [e|]]. }
  destruct post.
  - destruct (curlQueryFailover_post_run IP_String c w) as (w' & _ & E).
    destruct (GoNet.is_nil (outbound w 0)).
    + by eexists _, _, w'.
    + specialize (Hf (curl_post IP_String c (outbound w 0))).
      destruct (fetched w (curl_post IP_String c (outbound w 0)))
        as [body err].
      by exists body, err, w'.
  - destruct (curlQueryFailover_get_run IP_String c w) as (w' & E & _).
    specialize (Hf (curl_get IP_String c)).
    destruct (fetched w (curl_get IP_String c)) as [body err].
    by exists body, err, w'.
Qed.

(** X12: without the verbose flag the read request leaves the log as it
    was, and the write request logs the node's address and nothing of the
    command. *)
Theorem quiet_requests_are_not_logged (c : HetznerConfigurer) (w : World) :
  verbose c = false ->
  logged (curlQueryFailover IP_String c false w).2 = logged w
  /\ (forall own, route w (dials w) = inl own -> GoNet.is_nil own = false ->
      logged (curlQueryFailover IP_String c true w).2
      = Printf "my_own_ip: %s\n" [AString (IP_String own)] :: logged w).
Proof.
  intros Hv.
  unfold curlQueryFailover, run_curl, getOutboundIP, net_Dial, exec_Output,
    log_Printf, log_Println, log_emit, mbind, M_bind, mret, M_ret.
  rewrite Hv. split.
  - cbn [runs logged process route dials fst snd].
    match goal with
    | |- context [process w ?n ?a] => by destruct (process w n a) as [? [?|]]
    end.
  - intros own Hr Hnn. rewrite Hr, Hnn.
    cbn [runs logged process route dials fst snd].
    match goal with
    | |- context [process w ?n ?a] => by destruct (process w n a) as [? [?|]]
    end.
Qed.

(** *** Any sequence of operations *)

Lemma same_settings_refl c : same_settings c c.
Proof. by repeat split. Qed.

Lemma same_settings_trans c1 c2 c3 :
  same_settings c1 c2 -> same_settings c2 c3 -> same_settings c1 c3.
Proof.
  unfold same_settings. intros (?&?&?&?) (?&?&?&?). repeat split; congruence.
Qed.

Lemma own_request_same_settings c c' argv :
  same_settings c c' ->
  own_request IP_String c' argv -> own_request IP_String c argv.
Proof.
  intros (Hi & Hu & Hp & _).
  unfold own_request, curl_get, curl_post, failover_url.
  by rewrite Hi, Hu, Hp.
Qed.

Lemma perform_frame (op : operation) (c : HetznerConfigurer) (w : World) :
  (exists cmds,
     runs (perform json_Unmarshal net_ParseIP IP_String op c w).2
     = cmds ++ runs w
     /\ Forall (own_request IP_String c) cmds)
  /\ forall c' w',
      perform json_Unmarshal net_ParseIP IP_String op c w = (Done c', w') ->
      same_settings c c'
      /\ (valid_state (cachedState c) -> valid_state (cachedState c')).
Proof.
  destruct op; unfold perform, mbind, M_bind.
  - pose proof (queryAddress_frame c w) as [Hruns Hret].
    destruct (queryAddress json_Unmarshal net_ParseIP IP_String c w)
      as [[[b c1]|s] w1]; cbn [fst snd] in *.
    + split.
      * destruct (refreshes c w).
        -- exists [curl_get IP_String c]. split; [exact Hruns|].
           repeat constructor.
        -- by exists [].
      * intros c' w' H. unfold mret, M_ret in H. cbn in H. simplify_eq.
        destruct (Hret _ _ _ eq_refl) as [Hs Hc]. split; [exact Hs|].
        destruct (refreshes c w); [|by subst].
        intros _. rewrite Hc. unfold valid_state. destruct b; auto.
    + split; [|discriminate].
      destruct (refreshes c w).
      * exists [curl_get IP_String c]. split; [exact Hruns|].
        repeat constructor.
      * by exists [].
  - pose proof (configureAddress_frame c w) as [Hruns Hret].
    destruct (configureAddress json_Unmarshal net_ParseIP IP_String c w)
      as [[[b c1]|s] w1]; cbn [fst snd] in *.
    + split.
      * destruct (GoNet.is_nil (outbound w 0)); [by exists []|].
        exists [curl_post IP_String c (outbound w 0)].
        split; [exact Hruns|]. constructor; [right; by eexists|constructor].
      * intros c' w' H. unfold mret, M_ret in H. cbn in H. simplify_eq.
        destruct (Hret _ _ _ eq_refl) as [Hs Hc]. split; [exact Hs|].
        intros _. rewrite Hc. unfold valid_state. destruct b; auto.
    + split; [|discriminate].
      destruct (GoNet.is_nil (outbound w 0)); [by exists []|].
      exists [curl_post IP_String c (outbound w 0)].
      split; [exact Hruns|]. constructor; [right; by eexists|constructor].
  - cbn. split; [by exists []|].
    intros c' w' H. unfold mret, M_ret in H. cbn in H. simplify_eq.
    split; [unfold same_settings; cbn; auto|].
    intros _. unfold valid_state. cbn. auto.
  - unfold cleanupArp, mret, M_ret. cbn. split; [by exists []|].
    intros c' w' H. simplify_eq.
    split; [apply same_settings_refl|done].
Qed.

(** What a sequence of operations keeps, and what it runs. *)
Lemma perform_all_frame (ops : list operation) :
  forall (c : HetznerConfigurer) (w : World),
    (exists cmds,
       runs (perform_all json_Unmarshal net_ParseIP IP_String ops c w).2
       = cmds ++ runs w
       /\ Forall (own_request IP_String c) cmds)
    /\ forall c' w',
        perform_all json_Unmarshal net_ParseIP IP_String ops c w
        = (Done c', w') ->
        same_settings c c'
        /\ (valid_state (cachedState c) -> valid_state (cachedState c')).
Proof.
  induction ops as [|op ops IH]; intros c w.
  - unfold perform_all, mret, M_ret. cbn. split; [by exists []|].
    intros c' w' H. simplify_eq. split; [apply same_settings_refl|done].
  - cbn [perform_all]. unfold mbind, M_bind.
    destruct (perform_frame op c w) as [(cmds1 & Hr1 & Hf1) Hret1].
    destruct (perform json_Unmarshal net_ParseIP IP_String op c w)
      as [[c1|s] w1]; cbn [fst snd] in *.
    + destruct (Hret1 _ _ eq_refl) as [Hs1 Hv1].
      destruct (IH c1 w1) as [(cmds2 & Hr2 & Hf2) Hret2].
      split.
      * exists (cmds2 ++ cmds1). rewrite Hr2, Hr1, app_assoc.
        split; [done|]. apply Forall_app. split; [|exact Hf1].
        eapply Forall_impl; [exact Hf2|].
        intros argv. by apply own_request_same_settings.
      * intros c' w' H. destruct (Hret2 _ _ H) as [Hs2 Hv2].
        split; [by eapply same_settings_trans|auto].
    + split; [by exists cmds1|discriminate].
Qed.

(** X13: no sequence of operations ever gives [cachedState] a value other
    than the three constants: from one of them, every sequence that
    returns ends in one of them. *)
Theorem cachedState_stays_valid
        (ops : list operation) (c c' : HetznerConfigurer) (w w' : World) :
  valid_state (cachedState c) ->
  perform_all json_Unmarshal net_ParseIP IP_String ops c w = (Done c', w') ->
  valid_state (cachedState c').
Proof.
  intros Hv H. destruct (perform_all_frame ops c w) as [_ Hret].
  destruct (Hret _ _ H) as [_ Hv']. auto.
Qed.

(** X14: the operations write to the two cache fields only: the address
    managed, the user name, the password and the verbose flag are the same
    after any sequence of operations. *)
Theorem settings_are_immutable
        (ops : list operation) (c c' : HetznerConfigurer) (w w' : World) :
  perform_all json_Unmarshal net_ParseIP IP_String ops c w = (Done c', w') ->
  IPConfiguration_ c' = IPConfiguration_ c /\ username c' = username c
  /\ password c' = password c /\ verbose c' = verbose c.
Proof.
  intros H. destruct (perform_all_frame ops c w) as [_ Hret].
  by destruct (Hret _ _ H) as [? _].
Qed.

(** X15: whatever the sequence of operations, and whether it returns or
    panics, every child process it runs is one of the configurer's two
    requests: [curl --ipv4] with the configured credentials on the failover
    URL of the managed address, with or without an [active_server_ip]
    body. *)
Theorem only_own_requests_are_run
        (ops : list operation) (c : HetznerConfigurer) (w : World) :
  exists cmds,
    runs (perform_all json_Unmarshal net_ParseIP IP_String ops c w).2
    = cmds ++ runs w
    /\ forall argv, In argv cmds ->
         take 5 argv
         = ["curl"; "--ipv4"; "-u"; username c +:+ ":" +:+ password c;
            endpoint +:+ IP_String (VIP (IPConfiguration_ c))]
         /\ (drop 5 argv = []
             \/ exists ip, drop 5 argv
                           = ["-d"; "active_server_ip=" +:+ IP_String ip]).
Proof.
  destruct (perform_all_frame ops c w) as [(cmds & Hr & Hf) _].
  exists cmds. split; [exact Hr|].
  intros argv Hin. rewrite Forall_forall in Hf.
  destruct (Hf argv) as [-> | [ip ->]].
  { by apply list_elem_of_In. }
  - split; [reflexivity|by left].
  - split; [reflexivity|right; by exists ip].
Qed.

(** *** Operations one after the other *)

(** X16: a configurer as [newHetznerConfigurer] makes it always asks the
    provider on its first [queryAddress], whatever the clock shows: the
    constructor reports no error and the first query runs the read
    request. *)
Theorem new_configurer_asks_first
        (config : Config) (ipConfig : IPConfiguration) (w : World) :
  (newHetznerConfigurer config ipConfig).2 = None
  /\ runs (queryAddress json_Unmarshal net_ParseIP IP_String
             (newHetznerConfigurer config ipConfig).1 w).2
     = curl_get IP_String (newHetznerConfigurer config ipConfig).1 :: runs w.
Proof.
  split; [reflexivity|].
  destruct (queryAddress_frame (newHetznerConfigurer config ipConfig).1 w)
    as [Hruns _].
  rewrite Hruns. unfold refreshes. cbn [newHetznerConfigurer fst cachedState].
  by rewrite orb_true_r.
Qed.

(** X17: after a [configureAddress] that returned true, a [queryAddress]
    made before the cache is too old answers true from the cache and asks
    the provider nothing. *)
Theorem configured_is_believed
        (c c' : HetznerConfigurer) (w w' : World) :
  configureAddress json_Unmarshal net_ParseIP IP_String c w
  = (Done (true, c'), w') ->
  too_old (since c' w') = false ->
  exists w'',
    queryAddress json_Unmarshal net_ParseIP IP_String c' w'
    = (Done (true, c'), w'')
    /\ runs w'' = runs w'.
Proof.
  intros H Hage. apply configureAddress_frame in H as [_ Hc].
  destruct (queryAddress_hit json_Unmarshal net_ParseIP IP_String c' w')
    as (w'' & E & A).
  { unfold refreshes. by rewrite Hage, Hc. }
  exists w''. rewrite Hc in E. split; [exact E|].
  by destruct A as (_&_&_&_&_&?).
Qed.

(** X18: after a [deconfigureAddress], a [queryAddress] made before the
    cache is too old answers false from the cache and asks the provider
    nothing, whoever the provider routes the address to.  The age is
    counted from the last check, which [deconfigureAddress] leaves. *)
Theorem released_is_believed
        (c c' : HetznerConfigurer) (w0 w0' w : World) (b : bool) :
  deconfigureAddress c w0 = (Done (b, c'), w0') ->
  too_old (since c w) = false ->
  exists w',
    queryAddress json_Unmarshal net_ParseIP IP_String c' w
    = (Done (false, c'), w')
    /\ runs w' = runs w.
Proof.
  intros H Hage. unfold deconfigureAddress, mret, M_ret in H. simplify_eq.
  destruct (queryAddress_hit json_Unmarshal net_ParseIP IP_String
              (set_cachedState released c) w) as (w' & E & A).
  { unfold refreshes, since in *. cbn [lastAPICheck set_cachedState cachedState].
    by rewrite Hage. }
  exists w'. split; [exact E|]. by destruct A as (_&_&_&_&_&?).
Qed.

(** X19: a refresh whose reply parses to an address without error compares
    it with the node's own: [queryAddress] returns the result of
    [Equal], leaves [configured] on a match and [released] otherwise, and
    stamps [lastAPICheck] with the clock read after the reply. *)
Theorem queryAddress_refresh_compares
        (c : HetznerConfigurer) (w : World) (out : string) (ip : GoNet.IP) :
  refreshes c w = true ->
  reply w (curl_get IP_String c) = (out, None) ->
  parsed json_Unmarshal net_ParseIP out = Done (ip, None) ->
  exists c' w',
    queryAddress json_Unmarshal net_ParseIP IP_String c w
    = (Done (GoNet.Equal ip (outbound w 0), c'), w')
    /\ cachedState c'
       = (if GoNet.Equal ip (outbound w 0) then configured else released)
    /\ lastAPICheck c' = clock w 1.
Proof.
  intros Hr Hreply Hp.
  destruct (queryAddress_refresh_run json_Unmarshal net_ParseIP IP_String
              c w Hr) as (w' & _ & E).
  assert (read_reply IP_String c w = (out, None)) as Hread
    by (unfold read_reply, fetched; by rewrite Hreply).
  rewrite Hread in E. cbn [fst snd] in E. rewrite Hp in E.
  cbv zeta in E. cbn [fst snd] in E.
  destruct (GoNet.Equal ip (outbound w 0)); eexists; exists w';
    (split; [exact E|]); by split.
Qed.

(** X20: with [configured] or [released] in the cache, [queryAddress] asks
    the provider exactly when two full hours have passed since
    [lastAPICheck]: the quotient of the age by the hour must exceed one.
    An age below two hours, a negative one included, is answered from the
    cache. *)
Theorem cache_expires_after_two_hours (c : HetznerConfigurer) (w : World) :
  cachedState c = configured \/ cachedState c = released ->
  (runs (queryAddress json_Unmarshal net_ParseIP IP_String c w).2 = runs w
   <-> since c w < 2 * GoTime.Hour).
Proof.
  intros Hst. destruct (queryAddress_frame c w) as [Hruns _].
  rewrite Hruns. rewrite <- not_too_old_iff.
  assert (refreshes c w = too_old (since c w)) as ->.
  { unfold refreshes.
    destruct Hst as [-> | ->]; cbn; by rewrite orb_false_r. }
  destruct (too_old (since c w)); [|done].
  split; [|discriminate].
  intros H. apply (f_equal length) in H. simpl in H. lia.
Qed.

(** *** The two forms of an IPv4 address *)

Lemma bytes_Equal_refl (l : list Byte.byte) : GoNet.bytes_Equal l l = true.
Proof.
  induction l as [|b l IH]; [reflexivity|].
  cbn. rewrite IH, andb_true_r. by apply Byte.byte_dec_lb.
Qed.

(** X21: the comparison of the refresh identifies the two forms of an IPv4
    address: when the reply parses to the 16-byte form of the four bytes
    that the dial returns, [queryAddress] answers true and leaves
    [configured]. *)
Theorem queryAddress_recognises_both_forms
        (c : HetznerConfigurer) (w : World) (out : string)
        (a : list Byte.byte) :
  refreshes c w = true ->
  reply w (curl_get IP_String c) = (out, None) ->
  parsed json_Unmarshal net_ParseIP out
  = Done (GoNet.v4InV6Prefix ++ a, None) ->
  outbound w 0 = a ->
  length a = 4%nat ->
  exists c' w',
    queryAddress json_Unmarshal net_ParseIP IP_String c w
    = (Done (true, c'), w')
    /\ cachedState c' = configured.
Proof.
  intros Hr Hreply Hp Hown Hlen.
  destruct (queryAddress_refresh_run json_Unmarshal net_ParseIP IP_String
              c w Hr) as (w' & _ & E).
  assert (read_reply IP_String c w = (out, None)) as Hread
    by (unfold read_reply, fetched; by rewrite Hreply).
  rewrite Hread in E. cbn [fst snd] in E. rewrite Hp, Hown in E.
  cbv zeta in E. cbn [fst snd] in E.
  assert (GoNet.Equal (GoNet.v4InV6Prefix ++ a) a = true) as Heq.
  { unfold GoNet.Equal. rewrite length_app, Hlen. cbn [length Nat.add Nat.eqb].
    cbn [GoNet.IPv4len GoNet.IPv6len Nat.eqb andb].
    change 12%nat with (length GoNet.v4InV6Prefix).
    rewrite take_app_length, drop_app_length, !bytes_Equal_refl. done. }
  rewrite Heq in E. by eexists _, w'.
Qed.

End Operations.

(** ** The further properties on the sample inputs *)

Import Cases.

(** What the model makes of the further sample bodies. *)
Lemma unrouted_body_decoded :
  GoLib.json_Unmarshal unrouted_body
  = inl {[ "failover" := JObject unrouted_record ]}.
Proof. vm_compute. reflexivity. Qed.

Lemma both_body_decoded : GoLib.json_Unmarshal both_body = inl both_object.
Proof. vm_compute. reflexivity. Qed.

(** X1 on the sample error record. *)
Lemma getActiveIPFromJSON_error_has_no_address_witness :
  (getActiveIPFromJSON' (node unknown ten_to_ten) error_body blank).1
  = Done ([], Some "Hetzner API returned error response")
  /\ @nil Byte.byte = [].
Proof.
  assert ((getActiveIPFromJSON' (node unknown ten_to_ten) error_body blank).1
          = Done ([], Some "Hetzner API returned error response")) as H
    by (vm_compute; reflexivity).
  split; [exact H|].
  exact (getActiveIPFromJSON_error_has_no_address _ _ _ _ _ _ _ H).
Defined.

(** X2 on the empty object. *)
Lemma getActiveIPFromJSON_neither_entry_witness :
  GoLib.json_Unmarshal "{}" = inl ∅
  /\ index (∅ : gmap string json) "error" = JNull
  /\ index (∅ : gmap string json) "failover" = JNull
  /\ (getActiveIPFromJSON' (node unknown ten_to_ten) "{}" blank).1
     = Done ([], Some "why did we end up here?").
Proof.
  assert (GoLib.json_Unmarshal "{}" = inl ∅) as H by (vm_compute; reflexivity).
  split; [exact H|]. split; [reflexivity|]. split; [reflexivity|].
  eapply getActiveIPFromJSON_neither_entry; [exact H|reflexivity|reflexivity].
Defined.

(** X3 on an object that holds both records. *)
Lemma getActiveIPFromJSON_error_first_witness :
  GoLib.json_Unmarshal both_body = inl both_object
  /\ index both_object "error" = JObject error_record
  /\ error_fields_typed error_record = true
  /\ (getActiveIPFromJSON' (node unknown ten_to_ten) both_body blank).1
     = Done ([], Some "Hetzner API returned error response").
Proof.
  split; [exact both_body_decoded|]. split; [reflexivity|].
  split; [reflexivity|].
  eapply getActiveIPFromJSON_error_first;
    [exact both_body_decoded|reflexivity|reflexivity].
Defined.

(** X4 on the record of an address that is routed nowhere: the assertion on
    [active_server_ip] fails and the parser panics. *)
Lemma getActiveIPFromJSON_panics_iff_witness :
  GoLib.json_Unmarshal unrouted_body
  = inl {[ "failover" := JObject unrouted_record ]}
  /\ ((exists s,
         (getActiveIPFromJSON' (node unknown ten_to_ten) unrouted_body blank).1
         = Panicked s)
      <-> assertions_hold {[ "failover" := JObject unrouted_record ]} = false).
Proof.
  split; [exact unrouted_body_decoded|].
  apply getActiveIPFromJSON_panics_iff. exact unrouted_body_decoded.
Defined.

Example unrouted_address_panics :
  (getActiveIPFromJSON' (node unknown ten_to_ten) unrouted_body blank).1
  = Panicked "interface conversion: not string".
Proof. vm_compute. reflexivity. Qed.

(** X5 on the empty body. *)
Lemma getActiveIPFromJSON_undecodable_witness :
  GoLib.json_Unmarshal EmptyString = inr "invalid JSON input"
  /\ (getActiveIPFromJSON' (node unknown ten_to_ten) EmptyString blank).1
     = Done ([], Some "invalid JSON input")
  /\ head (logged (getActiveIPFromJSON' (node unknown ten_to_ten)
                     EmptyString blank).2)
     = Some (Println [AError "invalid JSON input"]).
Proof.
  split; [reflexivity|].
  apply getActiveIPFromJSON_undecodable. reflexivity.
Defined.

(** X9 with the network down. *)
Lemma configureAddress_without_route_witness :
  outbound w_down 0 = []
  /\ exists w',
      configureAddress' (node unknown ten_to_ten) w_down
      = (Done (false, set_cachedState unknown (node unknown ten_to_ten)), w')
      /\ runs w' = runs w_down.
Proof.
  split; [reflexivity|].
  apply configureAddress_without_route. reflexivity.
Defined.

(** X10 where the provider names another server. *)
Lemma configureAddress_outcome_witness :
  exists w',
    configureAddress' (node unknown ten_to_ten) w_other
    = (Done (false, node unknown ten), w')
    /\ cachedState (node unknown ten) = unknown
    /\ cachedState (node unknown ten) <> released.
Proof.
  exists (configureAddress' (node unknown ten_to_ten) w_other).2.
  assert (configureAddress' (node unknown ten_to_ten) w_other
          = (Done (false, node unknown ten),
             (configureAddress' (node unknown ten_to_ten) w_other).2)) as H.
  { assert ((configureAddress' (node unknown ten_to_ten) w_other).1
            = Done (false, node unknown ten)) as H1 by (vm_compute; reflexivity).
    rewrite <- H1. apply surjective_pairing. }
  split; [exact H|].
  exact (configureAddress_outcome _ _ _ _ _ _ _ _ H).
Defined.

(** X12 on the silent node. *)
Lemma quiet_requests_are_not_logged_witness :
  verbose silent_node = false
  /\ logged (curlQueryFailover GoLib.IP_String silent_node false w_own).2
     = logged w_own
  /\ (forall own, route w_own (dials w_own) = inl own ->
      GoNet.is_nil own = false ->
      logged (curlQueryFailover GoLib.IP_String silent_node true w_own).2
      = Printf "my_own_ip: %s\n" [AString (GoLib.IP_String own)]
        :: logged w_own).
Proof.
  split; [reflexivity|].
  apply quiet_requests_are_not_logged. reflexivity.
Defined.

(** The sample day ends with the node released and believed so. *)
Lemma day_outcome :
  (perform_all' day (node unknown ten_to_ten) w_own).1
  = Done (node released ten).
Proof. vm_compute. reflexivity. Qed.

Lemma day_returns :
  perform_all' day (node unknown ten_to_ten) w_own
  = (Done (node released ten),
     (perform_all' day (node unknown ten_to_ten) w_own).2).
Proof. rewrite <- day_outcome. apply surjective_pairing. Qed.

(** X13 on the sample day. *)
Lemma cachedState_stays_valid_witness :
  valid_state (cachedState (node unknown ten_to_ten))
  /\ (exists w',
        perform_all' day (node unknown ten_to_ten) w_own
        = (Done (node released ten), w'))
  /\ valid_state (cachedState (node released ten)).
Proof.
  split; [by left|]. split; [eexists; exact day_returns|].
  eapply cachedState_stays_valid; [|exact day_returns]. by left.
Defined.

(** X14 on the sample day. *)
Lemma settings_are_immutable_witness :
  (exists w',
     perform_all' day (node unknown ten_to_ten) w_own
     = (Done (node released ten), w'))
  /\ IPConfiguration_ (node released ten)
     = IPConfiguration_ (node unknown ten_to_ten)
  /\ username (node released ten) = username (node unknown ten_to_ten)
  /\ password (node released ten) = password (node unknown ten_to_ten)
  /\ verbose (node released ten) = verbose (node unknown ten_to_ten).
Proof.
  split; [eexists; exact day_returns|].
  eapply settings_are_immutable. exact day_returns.
Defined.

(** The requests of the sample day: one read, then one write. *)
Example day_requests :
  runs (perform_all' day (node unknown ten_to_ten) w_own).2
  = [["curl"; "--ipv4"; "-u"; "robot:hunter2";
      "https://robot-ws.your-server.de/failover/203.0.113.10";
      "-d"; "active_server_ip=192.0.2.7"];
     ["curl"; "--ipv4"; "-u"; "robot:hunter2";
      "https://robot-ws.your-server.de/failover/203.0.113.10"]].
Proof. vm_compute. reflexivity. Qed.

Lemma claim_returns :
  configureAddress' (node unknown ten_to_ten) w_own
  = (Done (true, node configured ten),
     (configureAddress' (node unknown ten_to_ten) w_own).2).
Proof.
  assert ((configureAddress' (node unknown ten_to_ten) w_own).1
          = Done (true, node configured ten)) as H by (vm_compute; reflexivity).
  rewrite <- H. apply surjective_pairing.
Qed.

(** X17 after a claim that the provider confirms. *)
Lemma configured_is_believed_witness :
  configureAddress' (node unknown ten_to_ten) w_own
  = (Done (true, node configured ten),
     (configureAddress' (node unknown ten_to_ten) w_own).2)
  /\ too_old (since (node configured ten)
                    (configureAddress' (node unknown ten_to_ten) w_own).2)
     = false
  /\ exists w'',
      queryAddress' (node configured ten)
        (configureAddress' (node unknown ten_to_ten) w_own).2
      = (Done (true, node configured ten), w'')
      /\ runs w'' = runs (configureAddress' (node unknown ten_to_ten) w_own).2.
Proof.
  assert (too_old (since (node configured ten)
                         (configureAddress' (node unknown ten_to_ten) w_own).2)
          = false) as Hage by (vm_compute; reflexivity).
  split; [exact claim_returns|]. split; [exact Hage|].
  exact (configured_is_believed _ _ _ _ _ _ _ claim_returns Hage).
Defined.

(** X18 for a node that releases an address the provider still routes to
    it. *)
Lemma released_is_believed_witness :
  deconfigureAddress (node configured half_past_nine) w_own
  = (Done (true, node released half_past_nine), w_own)
  /\ too_old (since (node configured half_past_nine) w_own) = false
  /\ exists w',
      queryAddress' (node released half_past_nine) w_own
      = (Done (false, node released half_past_nine), w')
      /\ runs w' = runs w_own.
Proof.
  split; [reflexivity|]. split; [reflexivity|].
  apply (released_is_believed GoLib.json_Unmarshal GoLib.net_ParseIP
           GoLib.IP_String (node configured half_past_nine)
           (node released half_past_nine) w_own w_own w_own true);
    reflexivity.
Defined.

(** X19 where the provider names another server. *)
Lemma queryAddress_refresh_compares_witness :
  refreshes (node unknown ten_to_ten) w_other = true
  /\ reply w_other (curl_get GoLib.IP_String (node unknown ten_to_ten))
     = (failover_body "192.0.2.8", None)
  /\ parsed' (failover_body "192.0.2.8")
     = Done (GoLib.net_ParseIP "192.0.2.8", None)
  /\ exists c' w',
      queryAddress' (node unknown ten_to_ten) w_other
      = (Done (GoNet.Equal (GoLib.net_ParseIP "192.0.2.8")
                           (outbound w_other 0), c'), w')
      /\ cachedState c'
         = (if GoNet.Equal (GoLib.net_ParseIP "192.0.2.8") (outbound w_other 0)
            then configured else released)
      /\ lastAPICheck c' = clock w_other 1.
Proof.
  assert (parsed' (failover_body "192.0.2.8")
          = Done (GoLib.net_ParseIP "192.0.2.8", None)) as Hp
    by (vm_compute; reflexivity).
  split; [reflexivity|]. split; [reflexivity|]. split; [exact Hp|].
  eapply queryAddress_refresh_compares; [reflexivity|reflexivity|exact Hp].
Defined.

(** X20 on a cache that is one hour old. *)
Lemma cache_expires_after_two_hours_witness :
  (cachedState (node configured nine) = configured
   \/ cachedState (node configured nine) = released)
  /\ (runs (queryAddress' (node configured nine) w_other).2 = runs w_other
      <-> since (node configured nine) w_other < 2 * GoTime.Hour).
Proof.
  split; [by left|].
  apply cache_expires_after_two_hours. by left.
Defined.

(** X21 where the provider names this node: the reply parses to sixteen
    bytes and the dial returns four. *)
Lemma queryAddress_recognises_both_forms_witness :
  refreshes (node unknown ten_to_ten) w_own = true
  /\ reply w_own (curl_get GoLib.IP_String (node unknown ten_to_ten))
     = (failover_body "192.0.2.7", None)
  /\ parsed' (failover_body "192.0.2.7")
     = Done (GoNet.v4InV6Prefix ++ own, None)
  /\ outbound w_own 0 = own
  /\ length own = 4%nat
  /\ exists c' w',
      queryAddress' (node unknown ten_to_ten) w_own = (Done (true, c'), w')
      /\ cachedState c' = configured.
Proof.
  assert (parsed' (failover_body "192.0.2.7")
          = Done (GoNet.v4InV6Prefix ++ own, None)) as Hp
    by (vm_compute; reflexivity).
  split; [reflexivity|]. split; [reflexivity|]. split; [exact Hp|].
  split; [reflexivity|]. split; [reflexivity|].
  eapply queryAddress_recognises_both_forms;
    [reflexivity|reflexivity|exact Hp|reflexivity|reflexivity].
Defined.
